(** * Night-check report generator ([app.py]): model and verified properties

    A shallow embedding of the request handlers of [app.py] and of the
    helpers they call.  Python strings are modelled as [string], one
    character per code point below 256; byte strings as [list byte];
    dictionaries and [pandas] rows as [gmap string _]; exceptions as an
    explicit [result] type.  Everything that lives outside the program
    (the network, the file system, the date parser of pandas, the template
    engine) is collected in a [World] record that the handlers read. *)

From Stdlib Require Import ZArith NArith Ascii String List Lia Bool DecimalString.
From Stdlib Require Strings.Byte.
From stdpp Require Import base option list sorting gmap strings.

Open Scope string_scope.
Open Scope Z_scope.

Abbreviation bytes := (list Init.Byte.byte).

(** ** Python string primitives *)

Module PyStr.

(** Code point of a character. *)
Definition ord (c : ascii) : N := N_of_ascii c.

(** [str.isspace] on one character, for code points below 256. *)
Definition is_space (c : ascii) : bool :=
  let n := ord c in
  ((9 <=? n) && (n <=? 13) || (28 <=? n) && (n <=? 32)
   || (n =? 133) || (n =? 160))%N.

Fixpoint lstrip (s : string) : string :=
  match s with
  | EmptyString => EmptyString
  | String c s' => if is_space c then lstrip s' else s
  end.

Fixpoint rstrip (s : string) : string :=
  match s with
  | EmptyString => EmptyString
  | String c s' =>
      match rstrip s' with
      | EmptyString => if is_space c then EmptyString else String c EmptyString
      | r => String c r
      end
  end.

(** [s.strip()] *)
Definition strip (s : string) : string := rstrip (lstrip s).

(** Puts [c] in front of the first piece of a split. *)
Definition cons_head (c : ascii) (l : list string) : list string :=
  match l with
  | [] => [String c EmptyString]
  | h :: t => String c h :: t
  end.

(** [s.split(sep)] for a one-character separator. *)
Fixpoint split (sep : ascii) (s : string) : list string :=
  match s with
  | EmptyString => [EmptyString]
  | String c s' =>
      if Ascii.eqb c sep then EmptyString :: split sep s'
      else cons_head c (split sep s')
  end.

(** [s.split(sep, maxsplit)] for a one-character separator. *)
Fixpoint splitn (sep : ascii) (s : string) (maxsplit : nat) : list string :=
  match s with
  | EmptyString => [EmptyString]
  | String c s' =>
      match maxsplit with
      | O => [s]
      | S n =>
          if Ascii.eqb c sep then EmptyString :: splitn sep s' n
          else cons_head c (splitn sep s' maxsplit)
      end
  end.

(** [s.replace(a, b)] for one-character [a] and [b]. *)
Fixpoint replace (a b : ascii) (s : string) : string :=
  match s with
  | EmptyString => EmptyString
  | String c s' => String (if Ascii.eqb c a then b else c) (replace a b s')
  end.

(** [str.lower] on one character, for code points below 256. *)
Definition lower_char (c : ascii) : ascii :=
  let n := ord c in
  if ((65 <=? n) && (n <=? 90)
      || (192 <=? n) && (n <=? 222) && negb (n =? 215))%N
  then ascii_of_N (n + 32) else c.

Fixpoint lower (s : string) : string :=
  match s with
  | EmptyString => EmptyString
  | String c s' => String (lower_char c) (lower s')
  end.

(** [s.startswith(p)] *)
Definition startswith (s p : string) : bool := String.prefix p s.

(** [s.endswith(p)] *)
Definition endswith (s p : string) : bool :=
  let ls := String.length s in
  let lp := String.length p in
  (lp <=? ls)%nat && String.eqb (String.substring (ls - lp) lp s) p.

(** Truth value of a string: non-empty. *)
Definition truthy (s : string) : bool :=
  match s with EmptyString => false | _ => true end.

(** [l[-1]] of a non-empty list of strings. *)
Definition last_piece (l : list string) : string := List.last l EmptyString.

(** [l[0]] of a non-empty list of strings. *)
Definition first_piece (l : list string) : string := List.hd EmptyString l.

(** Number of occurrences of a character. *)
Fixpoint count (c : ascii) (s : string) : nat :=
  match s with
  | EmptyString => O
  | String a s' => ((if Ascii.eqb a c then 1 else 0) + count c s')%nat
  end.

(** [str(n)] for an integer. *)
Definition of_Z (z : Z) : string := NilZero.string_of_int (Z.to_int z).

Fixpoint zeros (n : nat) : string :=
  match n with
  | O => EmptyString
  | S n' => String "0" (zeros n')
  end.

(** [s.zfill(width)] for a string of digits: left-padded with zeros. *)
Definition zfill (width : nat) (s : string) : string :=
  zeros (width - String.length s) ++ s.

End PyStr.

(** ** Values, dates and exceptions *)

(** A calendar date ([datetime.date]). *)
Record date := Date { year : Z; month : Z; day : Z }.

(** A [pandas.Timestamp]: a calendar date and a time of day (whole
    seconds; the sub-second part is not modelled). *)
Record timestamp := Timestamp {
  ts_date : date;
  ts_hour : Z;
  ts_minute : Z;
  ts_second : Z
}.

#[export] Instance date_eq_dec : EqDecision date.
Proof. solve_decision. Defined.
#[export] Instance timestamp_eq_dec : EqDecision timestamp.
Proof. solve_decision. Defined.

Definition pad (width : nat) (z : Z) : string := PyStr.zfill width (PyStr.of_Z z).

(** [str(d)] of a [datetime.date]: ISO format, which is what
    [f"{target_date}"] prints. *)
Definition date_iso (d : date) : string :=
  pad 4 (year d) ++ "-" ++ pad 2 (month d) ++ "-" ++ pad 2 (day d).

Definition is_leap (y : Z) : bool :=
  (y mod 4 =? 0) && (negb (y mod 100 =? 0) || (y mod 400 =? 0)).

Definition days_in_month (y m : Z) : Z :=
  if m =? 2 then (if is_leap y then 29 else 28)
  else if (m =? 4) || (m =? 6) || (m =? 9) || (m =? 11) then 30
  else 31.

(** The dates that [datetime] can hold: years 1 to 9999, a month of the
    year, a day of the month. *)
Definition valid_date (d : date) : bool :=
  (1 <=? year d) && (year d <=? 9999)
  && (1 <=? month d) && (month d <=? 12)
  && (1 <=? day d) && (day d <=? days_in_month (year d) (month d)).

(** [str(t)] of a [pandas.Timestamp]. *)
Definition timestamp_str (t : timestamp) : string :=
  date_iso (ts_date t) ++ " " ++ pad 2 (ts_hour t) ++ ":" ++ pad 2 (ts_minute t)
  ++ ":" ++ pad 2 (ts_second t).

(** The scalars a cell of a row can hold.  [VNaN] is the float that pandas
    puts in an empty cell; finite floats are not modelled. *)
Inductive value :=
| VNone
| VNaN
| VNaT
| VBool (b : bool)
| VInt (z : Z)
| VStr (s : string)
| VTime (t : timestamp).

#[export] Instance value_eq_dec : EqDecision value.
Proof. solve_decision. Defined.

(** [pd.isna(v)] on a scalar. *)
Definition isna (v : value) : bool :=
  match v with
  | VNone | VNaN | VNaT => true
  | _ => false
  end.

(** [bool(v)]: the truth value Python gives a scalar. *)
Definition truthy (v : value) : bool :=
  match v with
  | VNone => false
  | VNaN => true
  | VNaT => true
  | VBool b => b
  | VInt z => negb (z =? 0)
  | VStr s => PyStr.truthy s
  | VTime _ => true
  end.

(** [str(v)] *)
Definition py_str (v : value) : string :=
  match v with
  | VNone => "None"
  | VNaN => "nan"
  | VNaT => "NaT"
  | VBool true => "True"
  | VBool false => "False"
  | VInt z => PyStr.of_Z z
  | VStr s => s
  | VTime t => timestamp_str t
  end.

(** [a or b] *)
Definition py_or (a b : value) : value := if truthy a then a else b.

(** The exceptions the program can meet. *)
Inductive exn :=
| FileNotFoundError (msg : string)
| UnrecognizedImageError
| TypeError
| ValueError
| Exception (msg : string).

(** A computation that returns a value or raises. *)
Inductive result (A : Type) :=
| Ok (a : A)
| Raise (e : exn).
Arguments Ok {A} a.
Arguments Raise {A} e.

Definition bind {A B} (k : A -> result B) (r : result A) : result B :=
  match r with
  | Ok a => k a
  | Raise e => Raise e
  end.

(** [try: body  except Exception: handler] *)
Definition try_except {A} (body : result A) (handler : exn -> result A) : result A :=
  match body with
  | Ok a => Ok a
  | Raise e => handler e
  end.

#[export] Instance result_bind : MBind result := @bind.
#[export] Instance result_ret : MRet result := @Ok.

(** [t.strftime("%d/%m/%Y")].  pandas first builds a [datetime] from the
    fields of the timestamp and raises when [datetime] cannot hold them;
    the C library then prints day and month on two digits and the year as
    it is, without leading zeros: year 999 gives ["05/03/999"]. *)
Definition strftime_dmY (t : timestamp) : result string :=
  let d := ts_date t in
  if valid_date d
  then Ok (pad 2 (day d) ++ "/" ++ pad 2 (month d) ++ "/" ++ PyStr.of_Z (year d))
  else Raise (Exception "NotImplementedError").

(** A row of the sheet ([pd.Series]): column name to cell. *)
Abbreviation row := (gmap string value).

(** [row.get(key, default)] *)
Definition row_get (r : row) (key : string) (dflt : value) : value :=
  default dflt (r !! key).

(** ** Site name parser *)

Definition parse_site_name (raw : value) : string * string * string :=
  match raw with
  | VStr raw =>
      match PyStr.splitn "-" raw 2 with
      | p0 :: p1 :: p2 :: _ => (PyStr.strip p0, PyStr.strip p1, PyStr.strip p2)
      | _ => ("", "", PyStr.strip raw)
      end
  | _ => ("", "", "")
  end.

(** ** The world outside the program *)

(** What [requests.get] hands back. *)
Record response := Response {
  status_code : Z;
  content_type : option string;   (* the Content-Type header, when sent *)
  content : bytes
}.

(** A sheet as [pd.read_csv] returns it. *)
Record dataframe := DataFrame {
  columns : list string;
  rows : list row
}.

(** What [DocxTemplate] is built from. *)
Inductive template :=
| TemplateBytes (b : bytes)
| TemplateFile (path : string).

(** An [InlineImage]: the picture and its width in EMU. *)
Record inline_image := InlineImage {
  image_descriptor : bytes;
  width : Z
}.

(** What a template context maps a field to. *)
Inductive cval :=
| CVal (v : value)
| CImages (l : list inline_image)
| CStrs (l : list string).

Abbreviation context := (gmap string cval).

Record World := {
  (** [requests.get(url, timeout=15)] *)
  requests_get : string -> result response;
  (** [pd.read_csv(url)] *)
  read_csv : string -> result dataframe;
  (** [os.path.exists(path)] *)
  path_exists : string -> bool;
  (** [datetime.strptime(s, "%Y-%m-%d").date()]; [None] is [ValueError] *)
  strptime_Ymd : string -> option date;
  (** What [pd.to_datetime(column, errors="coerce")] makes of the cell at a
      position of a column; [None] is [NaT]. *)
  infer_datetime : list value -> nat -> value -> option timestamp;
  (** [pd.to_datetime(v)] on a scalar that is not a [Timestamp] *)
  convert_datetime : value -> result timestamp;
  (** The constructor [DocxTemplate(...)] *)
  DocxTemplate_init : template -> result unit;
  (** The constructor [InlineImage(tpl, image, width=...)] *)
  InlineImage_init : template -> bytes -> Z -> result inline_image;
  (** [tpl.render(ctx)] followed by [tpl.save(buffer)] *)
  render_save : template -> context -> result bytes;
  (** The environment variable [NIGHT_CHECK_SHEET_URL] *)
  NIGHT_CHECK_SHEET_URL : string
}.

(** [for x in l: s = f s x], stopping at the first exception. *)
Fixpoint for_each {A S} (f : S -> A -> result S) (s : S) (l : list A) : result S :=
  match l with
  | [] => Ok s
  | a :: l' => s' ← f s a; for_each f s' l'
  end.

(** ** Regular expressions of the program *)

(** The class [[A-Za-z0-9_-]]. *)
Definition is_id_char (c : ascii) : bool :=
  let n := PyStr.ord c in
  ((65 <=? n) && (n <=? 90) || (97 <=? n) && (n <=? 122)
   || (48 <=? n) && (n <=? 57) || (n =? 95) || (n =? 45))%N.

Fixpoint take_while (p : ascii -> bool) (s : string) : string :=
  match s with
  | EmptyString => EmptyString
  | String c s' => if p c then String c (take_while p s') else EmptyString
  end.

Fixpoint drop_while (p : ascii -> bool) (s : string) : string :=
  match s with
  | EmptyString => EmptyString
  | String c s' => if p c then drop_while p s' else s
  end.

Fixpoint drop_prefix (p s : string) : option string :=
  match p, s with
  | EmptyString, _ => Some s
  | String a p', String b s' => if Ascii.eqb a b then drop_prefix p' s' else None
  | String _ _, EmptyString => None
  end.

(** A match of [before ([A-Za-z0-9_-]+) after] anchored at the start of
    [s]: group 1.  The group is greedy, and no character of the class
    starts [after], so the longest run is the only candidate. *)
Definition match_id_here (before after s : string) : option string :=
  match drop_prefix before s with
  | Some rest =>
      let g := take_while is_id_char rest in
      if PyStr.truthy g && PyStr.startswith (drop_while is_id_char rest) after
      then Some g else None
  | None => None
  end.

(** [re.search(before + "([A-Za-z0-9_-]+)" + after, s)]: group 1 of the
    leftmost match. *)
Fixpoint re_search_id (before after s : string) : option string :=
  match match_id_here before after s with
  | Some g => Some g
  | None =>
      match s with
      | EmptyString => None
      | String _ s' => re_search_id before after s'
      end
  end.

Definition extract_sheet_id (sheet_input : string) : string :=
  match re_search_id "/spreadsheets/d/" "" sheet_input with
  | Some g => g
  | None => PyStr.strip sheet_input
  end.

Definition load_sheet_via_csv (w : World) (sheet_input : string) (gid : option string)
  : result dataframe :=
  let sheet_id := extract_sheet_id sheet_input in
  let url := "https://docs.google.com/spreadsheets/d/" ++ sheet_id ++ "/export?format=csv" in
  let url := match gid with
             | Some g => if PyStr.truthy g then url ++ "&gid=" ++ g else url
             | None => url
             end in
  read_csv w url.

(** ** Drive image downloader *)

Definition extract_drive_file_id (url : string) : string :=
  match re_search_id "id=" "" url with
  | Some g => g
  | None =>
      match re_search_id "/d/" "/" url with
      | Some g => g
      | None => ""
      end
  end.

Definition download_url (file_id : string) : string :=
  "https://drive.google.com/uc?export=download&id=" ++ file_id.

(** Returns [Some] of the bytes, or [None] for Python's [None]. *)
Definition download_drive_image (w : World) (url : string) : result (option bytes) :=
  let file_id := extract_drive_file_id url in
  if negb (PyStr.truthy file_id) then Ok None
  else
    try_except
      (r ← requests_get w (download_url file_id);
       if status_code r =? 200 then
         let content_type := default "" (content_type r) in
         if PyStr.startswith content_type "image/" then Ok (Some (content r))
         else Ok None
       else Ok None)
      (fun _ => Ok None).

(** ** Base64 and data URIs *)

Definition b64_alphabet : string :=
  "ABCDEFGHIJKLMNOPQRSTUVWXYZabcdefghijklmnopqrstuvwxyz0123456789+/".

Definition b64_char (n : N) : ascii :=
  default "="%char (String.get (N.to_nat n) b64_alphabet).

(** [base64.b64encode(b).decode("ascii")] *)
Fixpoint b64encode (b : bytes) : string :=
  match b with
  | [] => ""
  | [x] =>
      let n := Byte.to_N x in
      String (b64_char (n / 4)) (String (b64_char (n mod 4 * 16)) "==")
  | [x; y] =>
      let n := (Byte.to_N x * 256 + Byte.to_N y)%N in
      String (b64_char (n / 1024))
        (String (b64_char (n / 16 mod 64)) (String (b64_char (n mod 16 * 4)) "="))
  | x :: y :: z :: rest =>
      let n := (Byte.to_N x * 65536 + Byte.to_N y * 256 + Byte.to_N z)%N in
      String (b64_char (n / 262144))
        (String (b64_char (n / 4096 mod 64))
           (String (b64_char (n / 64 mod 64))
              (String (b64_char (n mod 64)) (b64encode rest))))
  end.

Definition image_bytes_to_data_uri (img_bytes : bytes) (mime_type : string) : string :=
  "data:" ++ mime_type ++ ";base64," ++ b64encode img_bytes.

(** ** Context helpers *)

(** [pd.to_datetime(v)] on a scalar: a [Timestamp] is returned as it is. *)
Definition to_datetime (w : World) (v : value) : result timestamp :=
  match v with
  | VTime t => Ok t
  | _ => convert_datetime w v
  end.

Definition is_None (v : value) : bool :=
  match v with VNone => true | _ => false end.

(** [str(row.get(col, "") or "")] *)
Definition str_or_empty (r : row) (col : string) : string :=
  py_str (py_or (row_get r col (VStr "")) (VStr "")).

(** The value of [formatted_date] in [build_context_from_row]. *)
Definition formatted_date (w : World) (r : row) : result string :=
  let parsed_date := row_get r "Date_parsed" VNone in
  if negb (is_None parsed_date) && negb (isna parsed_date) then
    try_except
      (t ← to_datetime w parsed_date; strftime_dmY t)
      (fun _ => Ok (str_or_empty r "Date"))
  else Ok (str_or_empty r "Date").

(** The items of the dictionary [ctx] as [build_context_from_row] writes
    it down. *)
Definition context_items (r : row) (formatted_date : string) : list (string * value) :=
  let raw_site := row_get r "Site Name" (VStr "") in
  let '(zone, unit_code, sitename) := parse_site_name raw_site in
  [ ("zone", VStr zone);
    ("unit_code", VStr unit_code);
    ("site_name", py_or (VStr sitename) raw_site);
    ("date", VStr formatted_date);
    ("time", row_get r "Time" (VStr ""));
    ("attendance_register",
      row_get r "Documentation Check [Attendance Register]" (VStr ""));
    ("handling_register",
      row_get r "Documentation Check [Handling / Taking Over Register]" (VStr ""));
    ("material_register",
      row_get r "Documentation Check [Visitor Log Register]" (VStr ""));
    ("grooming", row_get r "Performance Check [Grooming]" (VStr ""));
    ("alertness", row_get r "Performance Check [Alertness]" (VStr ""));
    ("post_discipline", row_get r "Performance Check [Post Discipline]" (VStr ""));
    ("overall_rating", row_get r "Performance Check [Overall Rating]" (VStr ""));
    ("observation", row_get r "Observation" (VStr ""));
    ("inspected_by", row_get r "Inspected By" (VStr "")) ].

(** One turn of the loop [for k, v in list(ctx.items())]: a null value is
    replaced by the empty string. *)
Definition blank_null (v : value) : value :=
  if isna v then VStr "" else if is_None v then VStr "" else v.

Definition build_context_from_row (w : World) (r : row) : result (gmap string value) :=
  formatted_date ← formatted_date w r;
  let ctx : gmap string value := list_to_map (context_items r formatted_date) in
  Ok (blank_null <$> ctx).

(** [[u.strip() for u in images_raw.split(",") if u.strip()]] *)
Definition image_urls (images_raw : string) : list string :=
  PyStr.strip <$> filter (fun u => PyStr.truthy (PyStr.strip u) = true)
                    (PyStr.split "," images_raw).

(** [url.split("?")[0].split(".")[-1].lower()] *)
Definition url_extension (url : string) : string :=
  PyStr.lower
    (PyStr.last_piece (PyStr.split "." (PyStr.first_piece (PyStr.split "?" url)))).

(** The MIME type that the preview derives from a link. *)
Definition mime_of_url (url : string) : string :=
  let ext := url_extension url in
  if String.eqb ext "jpg" || String.eqb ext "jpeg" then "image/jpeg"
  else if String.eqb ext "png" then "image/png"
  else "image/jpeg".

Definition get_image_data_uris_for_row (w : World) (r : row) : result (list string) :=
  let images_raw := str_or_empty r "Images" in
  if negb (PyStr.truthy images_raw) then Ok []
  else
    for_each
      (fun uris url =>
         img_bytes ← download_drive_image w url;
         match img_bytes with
         | Some b =>
             let mime := mime_of_url url in
             try_except
               (Ok (uris ++ [image_bytes_to_data_uri b mime])%list)
               (fun _ => Ok uris)
         | None => Ok uris
         end)
      [] (image_urls images_raw).

(** ** Template rendering *)

(** [Inches(2.5)]: a length in EMU. *)
Definition Inches_2_5 : Z := 2286000.

Definition bytes_truthy (b : option bytes) : bool :=
  match b with
  | Some (_ :: _) => true
  | _ => false
  end.

(** The lines of [render_docx_row] that fill [inline_images]. *)
Definition collect_inline_images (w : World) (tpl : template) (r : row)
  : result (list inline_image) :=
  let images_raw := str_or_empty r "Images" in
  if PyStr.truthy images_raw then
    for_each
      (fun imgs url =>
         img_bytes ← download_drive_image w url;
         match img_bytes with
         | Some b =>
             match InlineImage_init w tpl b Inches_2_5 with
             | Ok img => Ok (imgs ++ [img])%list
             | Raise UnrecognizedImageError => Ok imgs
             | Raise e => Raise e
             end
         | None => Ok imgs
         end)
      [] (image_urls images_raw)
  else Ok [].

Definition render_docx_row (w : World) (r : row)
    (template_bytes : option bytes) (template_path : option string) : result bytes :=
  tpl ←
    (if bytes_truthy template_bytes then
       let tpl := TemplateBytes (default [] template_bytes) in
       _ ← DocxTemplate_init w tpl; Ok tpl
     else
       match template_path with
       | Some p =>
           if negb (PyStr.truthy p) || negb (path_exists w p)
           then Raise (FileNotFoundError "No valid template.docx found.")
           else let tpl := TemplateFile p in
                _ ← DocxTemplate_init w tpl; Ok tpl
       | None => Raise (FileNotFoundError "No valid template.docx found.")
       end);
  ctx ← build_context_from_row w r;
  inline_images ← collect_inline_images w tpl r;
  render_save w tpl (<["images" := CImages inline_images]> (CVal <$> ctx)).

(** ** Date filter *)

(** [df[col]]: the cells of a column, row by row. *)
Definition column (df : dataframe) (col : string) : list value :=
  (fun r => row_get r col VNaN) <$> rows df.

(** [pd.to_datetime(df["Date"], errors="coerce")], for a column that pandas
    converts to a column of timestamps, cell by cell.  (On a column of
    mixed UTC offsets the conversion or the [.dt] that follows raises
    instead; such columns are not covered here.) *)
Definition to_datetime_coerce (w : World) (col : list value) : list value :=
  imap (fun i v => match infer_datetime w col i v with
                   | Some t => VTime t
                   | None => VNaT
                   end) col.

(** [cell.date() == target_date] for a cell of the parsed column. *)
Definition date_is (target : date) (cell : value) : bool :=
  match cell with
  | VTime t => bool_decide (ts_date t = target)
  | _ => false
  end.

(** The two statements
      [df["Date_parsed"] = pd.to_datetime(df["Date"], errors="coerce")]
      [df_date = df[df["Date_parsed"].dt.date == target_date]]
    The result keeps the index label of every selected row. *)
Definition filter_by_date (w : World) (df : dataframe) (target : date) : list (nat * row) :=
  let parsed := to_datetime_coerce w (column df "Date") in
  let with_parsed := zip_with (fun r p => <["Date_parsed" := p]> r) (rows df) parsed in
  filter (fun ir => date_is target (row_get ir.2 "Date_parsed" VNaT) = true)
         (imap pair with_parsed).

(** ** Archive *)

(** A [zipfile.ZipFile] opened for writing: its entries in the order they
    were written ([filelist]).  [writestr] appends an entry whatever its
    name; reading by name finds the entry written last ([NameToInfo]). *)
Abbreviation zipfile := (list (string * bytes)).

Definition writestr (z : zipfile) (name : string) (data : bytes) : zipfile :=
  (z ++ [(name, data)])%list.

Definition namelist (z : zipfile) : list string := fst <$> z.

Fixpoint zip_read (z : zipfile) (name : string) : option bytes :=
  match z with
  | [] => None
  | (n, d) :: z' =>
      match zip_read z' name with
      | Some d' => Some d'
      | None => if String.eqb n name then Some d else None
      end
  end.

(** ** Requests and responses *)

Record upload := Upload { filename : string; file_bytes : bytes }.

Record request := Request {
  method : string;
  form : gmap string string;    (* [request.form], or [request.args] *)
  template_file : option upload (* [request.files.get("template_file")] *)
}.

Definition form_get (req : request) (key dflt : string) : string :=
  default dflt (form req !! key).

Inductive route :=
| IndexPage
| PreviewPage (sheet_input gid date_str : string) (idx : Z).

(** What a handler answers.  [flash] holds the message and its category. *)
Inductive http_response :=
| Redirect (target : route) (flash : option (string * string))
| SendFile (download_name mimetype : string) (archive : zipfile)
| RenderTemplate (name : string) (ctx : context)
| InternalServerError (e : exn).

Definition exn_str (e : exn) : string :=
  match e with
  | FileNotFoundError m => m
  | Exception m => m
  | UnrecognizedImageError => "UnrecognizedImageError"
  | TypeError => "TypeError"
  | ValueError => "ValueError"
  end.

Definition flash_redirect (msg category : string) : http_response :=
  Redirect IndexPage (Some (msg, category)).

(** [os.path.exists(template_path)]: [None] as a path is a [TypeError]. *)
Definition os_path_exists (w : World) (p : option string) : result bool :=
  match p with
  | Some p => Ok (path_exists w p)
  | None => Raise TypeError
  end.

(** The name under which a row's document is put in the archive. *)
Definition archive_name (target_date : date) (r : row) : string :=
  let '(_, _, sitename) := parse_site_name (row_get r "Site Name" (VStr "Site")) in
  let site_slug := PyStr.replace " " "_" (if PyStr.truthy sitename then sitename else "Site") in
  date_iso target_date ++ "_" ++ site_slug ++ ".docx".

(** The body of [with zipfile.ZipFile(...) as zipf: for idx, row in ...]. *)
Definition zip_rows (w : World) (target_date : date)
    (template_bytes : option bytes) (template_path : option string)
    (df_date : list (nat * row)) : result zipfile :=
  for_each
    (fun zipf ir =>
       docx_buf ← render_docx_row w ir.2 template_bytes template_path;
       Ok (writestr zipf (archive_name target_date ir.2) docx_buf))
    [] df_date.

Definition template_missing_msg : string :=
  "No template uploaded and template.docx not found in project folder.".

(** The branch [action == "download_zip"]. *)
Definition download_zip (w : World) (target_date : date)
    (template_bytes : option bytes) (template_path : option string)
    (df_date : list (nat * row)) : http_response :=
  match
    (if negb (bytes_truthy template_bytes) then
       e ← os_path_exists w template_path; Ok (negb e)
     else Ok false)
  with
  | Raise e => InternalServerError e
  | Ok true => flash_redirect template_missing_msg "error"
  | Ok false =>
      match zip_rows w target_date template_bytes template_path df_date with
      | Raise e => InternalServerError e
      | Ok zip_buffer =>
          SendFile ("night_checks_" ++ date_iso target_date ++ ".zip")
                   "application/zip" zip_buffer
      end
  end.

(** The sheet of a request, filtered by its date: the steps that [index]
    and [preview] share.  [Raise]-free: a failure is the response to send. *)
Definition load_and_filter (w : World) (sheet_input : string) (gid : option string)
    (date_str : string) : http_response + (date * list (nat * row)) :=
  match strptime_Ymd w date_str with
  | None => inl (flash_redirect "Invalid date format." "error")
  | Some target_date =>
      match load_sheet_via_csv w sheet_input gid with
      | Raise e => inl (flash_redirect ("Unable to load Google Sheet: " ++ exn_str e) "error")
      | Ok df =>
          if negb (bool_decide ("Date" ∈ columns df))
          then inl (flash_redirect "Column 'Date' missing in Google Sheet." "error")
          else
            let df_date := filter_by_date w df target_date in
            match df_date with
            | [] => inl (flash_redirect
                           ("No records found for " ++ date_iso target_date ++ ".") "warning")
            | _ => inr (target_date, df_date)
            end
      end
  end.

Definition gid_of (s : string) : option string :=
  let g := PyStr.strip s in if PyStr.truthy g then Some g else None.

Definition index (w : World) (req : request) : http_response :=
  if String.eqb (method req) "POST" then
    let sheet_input := PyStr.strip (form_get req "sheet_input" "") in
    let gid := gid_of (form_get req "gid" "") in
    let date_str := PyStr.strip (form_get req "date" "") in
    let action := form_get req "action" "download_zip" in
    if negb (PyStr.truthy sheet_input) || negb (PyStr.truthy date_str)
    then flash_redirect "Please enter sheet URL/ID and date." "error"
    else
      match load_and_filter w sheet_input gid date_str with
      | inl resp => resp
      | inr (target_date, df_date) =>
          let with_template (template_bytes : option bytes) (template_path : option string) :=
            if String.eqb action "download_zip" then
              download_zip w target_date template_bytes template_path df_date
            else if String.eqb action "preview" then
              Redirect (PreviewPage sheet_input (default "" gid) date_str 0) None
            else flash_redirect "Unknown action." "error" in
          match template_file req with
          | Some u =>
              if PyStr.truthy (filename u) then
                if negb (PyStr.endswith (PyStr.lower (filename u)) ".docx")
                then flash_redirect "Template must be a .docx file." "error"
                else with_template (Some (file_bytes u)) None
              else with_template None (Some "template.docx")
          | None => with_template None (Some "template.docx")
          end
      end
  else
    RenderTemplate "index.html" {[ "night_check_url" := CVal (VStr (NIGHT_CHECK_SHEET_URL w)) ]}.

(** ** Preview *)

Definition is_digit (c : ascii) : bool :=
  let n := PyStr.ord c in ((48 <=? n) && (n <=? 57))%N.

(** Decimal digits, single underscores allowed between two digits. *)
Fixpoint digits_value (s : string) (acc : Z) (after_digit : bool) : option Z :=
  match s with
  | EmptyString => if after_digit then Some acc else None
  | String c s' =>
      if is_digit c then digits_value s' (acc * 10 + (Z.of_N (PyStr.ord c) - 48)) true
      else if Ascii.eqb c "_" && after_digit then digits_value s' acc false
      else None
  end.

(** Number of decimal digits in a string. *)
Fixpoint count_digits (s : string) : Z :=
  match s with
  | EmptyString => 0
  | String c s' => (if is_digit c then 1 else 0) + count_digits s'
  end.

(** The interpreter's default limit on the digits of an integer string
    ([sys.int_max_str_digits]). *)
Definition int_max_str_digits : Z := 4300.

(** The digits after the sign: more than the limit is [ValueError]. *)
Definition int_digits (d : string) : option Z :=
  if int_max_str_digits <? count_digits d then None else digits_value d 0 false.

(** [int(s)]; [None] is [ValueError]. *)
Definition py_int (s : string) : option Z :=
  match PyStr.strip s with
  | String "+" d => int_digits d
  | String "-" d => Z.opp <$> int_digits d
  | d => int_digits d
  end.

(** The lines [if idx < 0: idx = 0] and [if idx > total - 1: idx = total - 1]. *)
Definition clamp_index (idx total : Z) : Z :=
  let idx := if idx <? 0 then 0 else idx in
  if idx >? total - 1 then total - 1 else idx.

(** [df_date.iloc[idx]] *)
Definition iloc (df_date : list (nat * row)) (idx : Z) : result row :=
  let pos := if idx <? 0 then Z.of_nat (length df_date) + idx else idx in
  if pos <? 0 then Raise (Exception "IndexError")
  else match df_date !! Z.to_nat pos with
       | Some ir => Ok ir.2
       | None => Raise (Exception "IndexError")
       end.

(** [preview] from [idx = int(idx_str)] on. *)
Definition preview_page (w : World) (sheet_input : string) (gid : option string)
    (date_str idx_str : string) (df_date : list (nat * row)) : result http_response :=
  let idx := default 0 (py_int idx_str) in
  let total := Z.of_nat (length df_date) in
  let idx := clamp_index idx total in
  r ← iloc df_date idx;
  ctx ← build_context_from_row w r;
  images_html ← get_image_data_uris_for_row w r;
  let ctx : context :=
    <["has_next" := CVal (VBool (idx <? total - 1))]>
    (<["has_prev" := CVal (VBool (idx >? 0))]>
    (<["total" := CVal (VInt total)]>
    (<["current_index" := CVal (VInt idx)]>
    (<["date_str" := CVal (VStr date_str)]>
    (<["gid" := CVal (VStr (default "" gid))]>
    (<["sheet_input" := CVal (VStr sheet_input)]>
    (<["images_html" := CStrs images_html]> (CVal <$> ctx)))))))) in
  Ok (RenderTemplate "preview.html" ctx).

Definition preview (w : World) (req : request) : http_response :=
  let sheet_input := PyStr.strip (form_get req "sheet_input" "") in
  let gid := gid_of (form_get req "gid" "") in
  let date_str := PyStr.strip (form_get req "date" "") in
  let idx_str := PyStr.strip (form_get req "idx" "0") in
  if negb (PyStr.truthy sheet_input) || negb (PyStr.truthy date_str)
  then flash_redirect "Missing sheet or date for preview." "error"
  else
    match load_and_filter w sheet_input gid date_str with
    | inl resp => resp
    | inr (_, df_date) =>
        match preview_page w sheet_input gid date_str idx_str df_date with
        | Ok resp => resp
        | Raise e => InternalServerError e
        end
    end.

(** ** Notions used to state the properties *)

(** The links of a row: the non-blank pieces of its "Images" cell. *)
Definition row_image_urls (r : row) : list string :=
  let images_raw := str_or_empty r "Images" in
  if PyStr.truthy images_raw then image_urls images_raw else [].

(** The links that the fetcher answers with bytes, each with its bytes. *)
Definition fetched (w : World) (urls : list string) : list (string * bytes) :=
  omap (fun url => match download_drive_image w url with
                   | Ok (Some b) => Some (url, b)
                   | _ => None
                   end) urls.

(** The fields of a context, each with the column it is read from. *)
Definition field_source : list (string * string) :=
  [ ("zone", "Site Name"); ("unit_code", "Site Name"); ("site_name", "Site Name");
    ("date", "Date"); ("time", "Time");
    ("attendance_register", "Documentation Check [Attendance Register]");
    ("handling_register", "Documentation Check [Handling / Taking Over Register]");
    ("material_register", "Documentation Check [Visitor Log Register]");
    ("grooming", "Performance Check [Grooming]");
    ("alertness", "Performance Check [Alertness]");
    ("post_discipline", "Performance Check [Post Discipline]");
    ("overall_rating", "Performance Check [Overall Rating]");
    ("observation", "Observation");
    ("inspected_by", "Inspected By") ].

(** A column that a row lacks, or whose cell is null. *)
Definition missing_or_null (r : row) (col : string) : Prop :=
  match r !! col with
  | None => True
  | Some v => isna v = true
  end.

(** The text of the [date] field: the pre-parsed date when it is there,
    converts and prints, the "Date" cell otherwise. *)
Definition date_text (w : World) (r : row) : string :=
  match r !! "Date_parsed" with
  | Some p =>
      if isna p then str_or_empty r "Date"
      else match (t ← to_datetime w p; strftime_dmY t) with
           | Ok s => s
           | Raise _ => str_or_empty r "Date"
           end
  | None => str_or_empty r "Date"
  end.

(** No template comes with the request: no file part, or one without a
    file name. *)
Definition no_upload (req : request) : Prop :=
  match template_file req with
  | None => True
  | Some u => PyStr.truthy (filename u) = false
  end.

(** The request passes every check of [index] that comes before the
    template is looked at, and its date leaves the rows [df_date]. *)
Definition reaches_action (w : World) (req : request) (target_date : date)
    (df_date : list (nat * row)) : Prop :=
  method req = "POST"
  /\ PyStr.truthy (PyStr.strip (form_get req "sheet_input" "")) = true
  /\ PyStr.truthy (PyStr.strip (form_get req "date" "")) = true
  /\ load_and_filter w (PyStr.strip (form_get req "sheet_input" ""))
       (gid_of (form_get req "gid" "")) (PyStr.strip (form_get req "date" ""))
     = inr (target_date, df_date).

(** The site part of an archive name, in the words of the specification:
    the parsed site name with every space replaced by an underscore, and
    "Site" when the parsed site name is empty. *)
Definition site_slug (r : row) : string :=
  let sitename := (parse_site_name (row_get r "Site Name" (VStr "Site"))).2 in
  PyStr.replace " " "_" (if String.eqb sitename "" then "Site" else sitename).

(** ** A concrete world

    The template engine as the libraries implement it, and a small sheet,
    used to run the model on concrete requests. *)

Definition has_at (offset : nat) (sig b : bytes) : bool :=
  bool_decide (Byte.to_N <$> take (length sig) (drop offset b) = Byte.to_N <$> sig).

(** The pictures python-docx recognises, by their signature: PNG, JFIF,
    Exif, GIF, TIFF and BMP. *)
Definition docx_recognizes (b : bytes) : bool :=
  has_at 0 [Byte.x89; Byte.x50; Byte.x4e; Byte.x47; Byte.x0d; Byte.x0a; Byte.x1a; Byte.x0a] b
  || has_at 6 [Byte.x4a; Byte.x46; Byte.x49; Byte.x46] b
  || has_at 6 [Byte.x45; Byte.x78; Byte.x69; Byte.x66] b
  || has_at 0 [Byte.x47; Byte.x49; Byte.x46; Byte.x38; Byte.x37; Byte.x61] b
  || has_at 0 [Byte.x47; Byte.x49; Byte.x46; Byte.x38; Byte.x39; Byte.x61] b
  || has_at 0 [Byte.x4d; Byte.x4d; Byte.x00; Byte.x2a] b
  || has_at 0 [Byte.x49; Byte.x49; Byte.x2a; Byte.x00] b
  || has_at 0 [Byte.x42; Byte.x4d] b.

(** docxtpl's [InlineImage] constructor only stores its arguments: the
    picture is not looked at before the template is rendered. *)
Definition docxtpl_InlineImage (tpl : template) (img : bytes) (w : Z) : result inline_image :=
  Ok (InlineImage img w).

Definition field_str (ctx : context) (k : string) : string :=
  match ctx !! k with
  | Some (CVal v) => py_str v
  | _ => ""
  end.

(** Rendering a template that prints site name, date and observation and
    then inserts every picture of [images]: python-docx reads each picture
    at that point and raises [UnrecognizedImageError] on one whose format
    it does not know. *)
Definition docxtpl_render (tpl : template) (ctx : context) : result bytes :=
  let imgs := match ctx !! "images" with Some (CImages l) => l | _ => [] end in
  if forallb (fun i => docx_recognizes (image_descriptor i)) imgs then
    Ok (list_byte_of_string
          (field_str ctx "site_name" ++ "|" ++ field_str ctx "date" ++ "|"
           ++ field_str ctx "observation" ++ "|")
        ++ concat (image_descriptor <$> imgs))%list
  else Raise UnrecognizedImageError.

Definition demo_png : bytes :=
  [Byte.x89; Byte.x50; Byte.x4e; Byte.x47; Byte.x0d; Byte.x0a; Byte.x1a; Byte.x0a; Byte.x00].

(** The first bytes of a WebP picture ("RIFF"), a format python-docx does
    not know. *)
Definition demo_webp : bytes := [Byte.x52; Byte.x49; Byte.x46; Byte.x46; Byte.x00].

Definition demo_requests_get (url : string) : result response :=
  if String.eqb url (download_url "PNG1") then
    Ok (Response 200 (Some "image/png") demo_png)
  else if String.eqb url (download_url "WEBP1") then
    Ok (Response 200 (Some "image/webp") demo_webp)
  else if String.eqb url (download_url "HTML1") then
    Ok (Response 200 (Some "text/html; charset=utf-8") [Byte.x3c])
  else if String.eqb url (download_url "GONE") then
    Ok (Response 404 (Some "image/png") [])
  else Raise (Exception "ConnectionError").

Definition two_digits (s : string) : option Z :=
  if (String.length s =? 2)%nat then digits_value s 0 false else None.

(** Dates written [YYYY-MM-DD]. *)
Definition demo_strptime (s : string) : option date :=
  if (String.length s =? 10)%nat
     && String.eqb (String.substring 4 1 s) "-" && String.eqb (String.substring 7 1 s) "-"
  then
    y ← digits_value (String.substring 0 4 s) 0 false;
    m ← two_digits (String.substring 5 2 s);
    d ← two_digits (String.substring 8 2 s);
    if (1 <=? m) && (m <=? 12) && (1 <=? d) && (d <=? 31) then Some (Date y m d) else None
  else None.

(** Cells written [YYYY-MM-DD] or [YYYY-MM-DD HH:MM:SS]. *)
Definition demo_infer_datetime (col : list value) (i : nat) (v : value) : option timestamp :=
  match v with
  | VStr s =>
      d ← demo_strptime (String.substring 0 10 s);
      if (String.length s =? 10)%nat then Some (Timestamp d 0 0 0)
      else if (String.length s =? 19)%nat then
        h ← two_digits (String.substring 11 2 s);
        m ← two_digits (String.substring 14 2 s);
        sec ← two_digits (String.substring 17 2 s);
        Some (Timestamp d h m sec)
      else None
  | VTime t => Some t
  | _ => None
  end.

Definition demo_row (date_cell site images : value) : row :=
  list_to_map [("Date", date_cell); ("Site Name", site); ("Images", images);
               ("Time", VStr "23:10"); ("Performance Check [Overall Rating]", VInt 4);
               ("Observation", VNaN)].

Definition demo_sheet : dataframe :=
  DataFrame ["Date"; "Site Name"; "Images"; "Time";
             "Performance Check [Overall Rating]"; "Observation"]
    [ demo_row (VStr "2024-03-05 21:40:00") (VStr "N - 12 - Main Gate")
        (VStr "https://drive.google.com/open?id=PNG1, https://drive.google.com/file/d/GONE/view");
      demo_row (VStr "2024-03-06") (VStr "S-3-Depot") VNaN;
      demo_row (VStr "not a date") (VStr "S-3-Depot") VNaN;
      demo_row (VStr "2024-03-05") (VStr "N - 12 - Main Gate") VNaN;
      demo_row VNaN (VStr "East-7-Yard") VNaN;
      demo_row (VStr "2024-03-05 06:00:00") (VStr "East-7-Yard") VNaN ].

Definition demo_world (template_present : bool) : World := {|
  requests_get := demo_requests_get;
  read_csv := fun url =>
    if String.eqb url "https://docs.google.com/spreadsheets/d/SHEET1/export?format=csv"
    then Ok demo_sheet else Raise (Exception "HTTP Error 404: Not Found");
  path_exists := fun p => String.eqb p "template.docx" && template_present;
  strptime_Ymd := demo_strptime;
  infer_datetime := demo_infer_datetime;
  convert_datetime := fun _ => Raise TypeError;
  DocxTemplate_init := fun _ => Ok tt;
  InlineImage_init := docxtpl_InlineImage;
  render_save := docxtpl_render;
  NIGHT_CHECK_SHEET_URL := ""
|}.

Definition demo_form (action idx : string) : gmap string string :=
  list_to_map [("sheet_input", "https://docs.google.com/spreadsheets/d/SHEET1/edit");
               ("date", "2024-03-05"); ("action", action); ("idx", idx)].

Definition demo_request (action : string) : request :=
  Request "POST" (demo_form action "0") None.

(** Two rows of one site on one date, as the filter hands them on. *)
Definition same_site_rows : list (nat * row) :=
  [ (0%nat, <["Date_parsed" := VTime (Timestamp (Date 2024 3 5) 21 40 0)]>
              (<["Observation" := VStr "gate open"]>
                 (demo_row (VStr "2024-03-05 21:40:00") (VStr "N - 12 - Main Gate") VNaN)));
    (3%nat, <["Date_parsed" := VTime (Timestamp (Date 2024 3 5) 0 0 0)]>
              (<["Observation" := VStr "gate locked"]>
                 (demo_row (VStr "2024-03-05") (VStr "N - 12 - Main Gate") VNaN))) ].

(** A row whose picture downloads as [image/webp]. *)
Definition webp_row : row :=
  demo_row (VStr "2024-03-05") (VStr "N - 12 - Main Gate")
    (VStr "https://drive.google.com/open?id=WEBP1").

(** ** Notions used to state further properties *)

(** A string made of characters of the class [[A-Za-z0-9_-]] only. *)
Definition id_string (s : string) : Prop :=
  forallb is_id_char (list_ascii_of_string s) = true.

(** The URL that [load_sheet_via_csv] builds for an identifier,
    without [gid]. *)
Definition export_url (sheet_id : string) : string :=
  "https://docs.google.com/spreadsheets/d/" ++ sheet_id ++ "/export?format=csv".

(** The same world with another file system. *)
Definition with_path_exists (w : World) (f : string -> bool) : World := {|
  requests_get := requests_get w;
  read_csv := read_csv w;
  path_exists := f;
  strptime_Ymd := strptime_Ymd w;
  infer_datetime := infer_datetime w;
  convert_datetime := convert_datetime w;
  DocxTemplate_init := DocxTemplate_init w;
  InlineImage_init := InlineImage_init w;
  render_save := render_save w;
  NIGHT_CHECK_SHEET_URL := NIGHT_CHECK_SHEET_URL w
|}.

(** The same world with another network for [requests.get]. *)
Definition with_requests_get (w : World) (f : string -> result response) : World := {|
  requests_get := f;
  read_csv := read_csv w;
  path_exists := path_exists w;
  strptime_Ymd := strptime_Ymd w;
  infer_datetime := infer_datetime w;
  convert_datetime := convert_datetime w;
  DocxTemplate_init := DocxTemplate_init w;
  InlineImage_init := InlineImage_init w;
  render_save := render_save w;
  NIGHT_CHECK_SHEET_URL := NIGHT_CHECK_SHEET_URL w
|}.

(** The request that a browser sends when it follows a redirect to the
    preview: the arguments of [url_for("preview", ...)] come back as the
    query of a GET request. *)
Definition follow_preview (sheet_input gid date_str : string) (idx : Z) : request :=
  Request "GET"
    (list_to_map [("sheet_input", sheet_input); ("gid", gid); ("date", date_str);
                  ("idx", PyStr.of_Z idx)])
    None.

(** A network that answers every URL outside the export endpoint of the
    image host with a picture, and the export endpoint as [demo_world]. *)
Definition open_requests_get (url : string) : result response :=
  if PyStr.startswith url (download_url "") then demo_requests_get url
  else Ok (Response 200 (Some "image/png") demo_png).

(** A POST request like [demo_request] that brings a file. *)
Definition upload_request (action : string) (u : upload) : request :=
  Request "POST" (demo_form action "0") (Some u).

(** Position of a character in the base64 alphabet. *)
Fixpoint index_from (c : ascii) (s : string) (n : N) : N :=
  match s with
  | EmptyString => n
  | String a s' => if Ascii.eqb a c then n else index_from c s' (n + 1)
  end.

Definition b64_index (c : ascii) : N := index_from c b64_alphabet 0.

Definition byte_of_N (n : N) : Init.Byte.byte := default Byte.x00 (Byte.of_N n).

(** The inverse of [b64encode]: four characters give three bytes, fewer
    where the group is padded with [=]. *)
Fixpoint b64decode (s : string) : bytes :=
  match s with
  | String a (String b (String c (String d rest))) =>
      let n := (b64_index a * 262144 + b64_index b * 4096
                + (if Ascii.eqb c "=" then 0 else b64_index c * 64)
                + (if Ascii.eqb d "=" then 0 else b64_index d))%N in
      if Ascii.eqb c "=" then [byte_of_N (n / 65536)]
      else if Ascii.eqb d "=" then [byte_of_N (n / 65536); byte_of_N (n / 256 mod 256)]
      else byte_of_N (n / 65536) :: byte_of_N (n / 256 mod 256) :: byte_of_N (n mod 256)
           :: b64decode rest
  | _ => []
  end.

(** * Properties *)


(** ** Sanity checks of the model on concrete inputs *)

Example strip_ex : PyStr.strip "  Main Gate " = "Main Gate".
Proof. reflexivity. Qed.
Example split_ex : PyStr.split "," "a,,b" = ["a"; ""; "b"].
Proof. reflexivity. Qed.
Example splitn_ex : PyStr.splitn "-" "N-12-Main-Gate" 2 = ["N"; "12"; "Main-Gate"].
Proof. reflexivity. Qed.
Example endswith_ex : PyStr.endswith "a.docx" ".docx" = true.
Proof. reflexivity. Qed.
Example of_Z_ex : PyStr.of_Z (-12) = "-12" /\ PyStr.of_Z 0 = "0".
Proof. split; reflexivity. Qed.
Example zfill_ex : PyStr.zfill 4 (PyStr.of_Z 12) = "0012".
Proof. reflexivity. Qed.
Example parse_site_name_ex :
  parse_site_name (VStr "North-U12-Main-Gate East") = ("North", "U12", "Main-Gate East").
Proof. reflexivity. Qed.
Example date_iso_ex : date_iso (Date 2024 3 5) = "2024-03-05".
Proof. reflexivity. Qed.
Example extract_id_ex1 :
  extract_drive_file_id "https://drive.google.com/open?id=1AbC_d-9&usp=x" = "1AbC_d-9".
Proof. reflexivity. Qed.
Example extract_id_ex2 :
  extract_drive_file_id "https://drive.google.com/file/d/1AbC_d-9/view" = "1AbC_d-9".
Proof. reflexivity. Qed.
Example extract_id_ex3 :
  extract_drive_file_id "https://example.com/d/1AbC" = "".
Proof. reflexivity. Qed.
Example extract_sheet_id_ex :
  extract_sheet_id "https://docs.google.com/spreadsheets/d/1x-Y_z/edit#gid=0" = "1x-Y_z".
Proof. reflexivity. Qed.
Example b64_ex : b64encode [Byte.x4d; Byte.x61; Byte.x6e; Byte.x4d; Byte.x61] = "TWFuTWE=".
Proof. reflexivity. Qed.
Example b64_ex1 : b64encode [Byte.x4d] = "TQ==".
Proof. reflexivity. Qed.
Example py_int_ex : py_int " -1_0 " = Some (-10) /\ py_int "x" = None /\ py_int "007" = Some 7.
Proof. repeat split; reflexivity. Qed.
Example clamp_ex : clamp_index 9 3 = 2 /\ clamp_index (-4) 3 = 0 /\ clamp_index 1 3 = 1.
Proof. repeat split; reflexivity. Qed.
Example py_int_limit_ex :
  py_int (PyStr.zeros 4299 ++ "7") = Some 7 /\ py_int ("7" ++ PyStr.zeros 4300) = None.
Proof. split; vm_compute; reflexivity. Qed.
Example strftime_ex :
  strftime_dmY (Timestamp (Date 2024 3 5) 21 40 0) = Ok "05/03/2024"
  /\ strftime_dmY (Timestamp (Date 999 3 5) 0 0 0) = Ok "05/03/999"
  /\ strftime_dmY (Timestamp (Date 2023 2 29) 0 0 0) = Raise (Exception "NotImplementedError").
Proof. repeat split; reflexivity. Qed.

(** ** Splitting *)

Section Split.
Variable sep : ascii.

Lemma count_cons_0 c s :
  PyStr.count sep (String c s) = 0%nat -> Ascii.eqb c sep = false /\ PyStr.count sep s = 0%nat.
Proof. simpl. destruct (Ascii.eqb c sep); [discriminate | auto]. Qed.

Lemma splitn_no_sep s n :
  PyStr.count sep s = 0%nat -> PyStr.splitn sep s n = [s].
Proof.
  revert n. induction s as [|c s IH]; intros n H; [reflexivity|].
  apply count_cons_0 in H as [Hc Hs]. simpl.
  destruct n as [|n]; [reflexivity|]. rewrite Hc, (IH _ Hs). reflexivity.
Qed.

Lemma splitn_first a t n :
  PyStr.count sep a = 0%nat ->
  PyStr.splitn sep (a ++ String sep t) (S n) = a :: PyStr.splitn sep t n.
Proof.
  induction a as [|c a IH]; intros H; simpl.
  - rewrite Ascii.eqb_refl. reflexivity.
  - apply count_cons_0 in H as [Hc Ha]. rewrite Hc.
    change (PyStr.cons_head c (PyStr.splitn sep (a ++ String sep t) (S n))
            = String c a :: PyStr.splitn sep t n).
    rewrite (IH Ha). reflexivity.
Qed.

Lemma splitn_0 s : PyStr.splitn sep s 0 = [s].
Proof. destruct s; reflexivity. Qed.

(** A string that holds the separator splits at its first occurrence. *)
Lemma first_sep s :
  (1 <= PyStr.count sep s)%nat ->
  exists a t, s = a ++ String sep t /\ PyStr.count sep a = 0%nat
              /\ PyStr.count sep s = S (PyStr.count sep t).
Proof.
  induction s as [|c s IH]; simpl; intros H; [lia|].
  destruct (Ascii.eqb c sep) eqn:Hc.
  - apply Ascii.eqb_eq in Hc as ->. exists EmptyString, s. auto.
  - destruct (IH H) as (a & t & -> & Ha & Ht).
    exists (String c a), t. simpl. rewrite Hc. auto.
Qed.
End Split.

(** ** Site name parser *)

(** C4, as the specification states it, fails: the three parts are not the hyphen
    segments themselves.  At ["N - 12 - Main Gate"] the segments are
    ["N "], [" 12 "] and [" Main Gate"], and the parser returns them
    without the blanks around them. *)
Lemma parse_site_name_segments_counterexample :
  parse_site_name (VStr "N - 12 - Main Gate") = ("N", "12", "Main Gate")
  /\ ~ (forall a b rest : string,
          PyStr.count "-" a = 0%nat -> PyStr.count "-" b = 0%nat ->
          parse_site_name (VStr (a ++ "-" ++ b ++ "-" ++ rest)) = (a, b, rest)).
Proof.
  split; [reflexivity|].
  intros H. specialize (H "N " " 12 " " Main Gate" eq_refl eq_refl).
  vm_compute in H. discriminate H.
Qed.

(** C4, amended: a string with at least two hyphens is cut at its first two
    hyphens, and the parser returns the first segment, the second segment
    and the remainder (its hyphens kept), each stripped of the white space
    around it; a string with fewer than two hyphens gives empty zone and
    unit and the stripped input as site name; a value that is not a string
    gives three empty strings.  The parser is a total function. *)
Theorem parse_site_name_spec :
  (forall s : string, (2 <= PyStr.count "-" s)%nat ->
     exists a b rest : string,
       s = a ++ "-" ++ b ++ "-" ++ rest
       /\ PyStr.count "-" a = 0%nat /\ PyStr.count "-" b = 0%nat
       /\ parse_site_name (VStr s) = (PyStr.strip a, PyStr.strip b, PyStr.strip rest))
  /\ (forall s : string, (PyStr.count "-" s < 2)%nat ->
        parse_site_name (VStr s) = ("", "", PyStr.strip s))
  /\ (forall v : value, (forall s, v <> VStr s) -> parse_site_name v = ("", "", "")).
Proof.
  split; [|split].
  - intros s H.
    destruct (first_sep "-" s) as (a & t & -> & Ha & Hs); [lia|].
    destruct (first_sep "-" t) as (b & rest & -> & Hb & Ht); [lia|].
    exists a, b, rest. repeat split; try assumption.
    unfold parse_site_name.
    rewrite (splitn_first "-" a _ 1 Ha), (splitn_first "-" b _ 0 Hb), splitn_0.
    reflexivity.
  - intros s H. unfold parse_site_name.
    destruct (PyStr.count "-" s) as [|n] eqn:Hn.
    + rewrite (splitn_no_sep "-" s 2 Hn). reflexivity.
    + destruct (first_sep "-" s) as (a & t & -> & Ha & Hs); [lia|].
      assert (Ht : PyStr.count "-" t = 0%nat) by lia.
      rewrite (splitn_first "-" a _ 1 Ha), (splitn_no_sep "-" t 1 Ht). reflexivity.
  - intros v H. destruct v; try reflexivity. exfalso. eapply H. reflexivity.
Qed.

Lemma parse_site_name_spec_witness :
  parse_site_name (VStr " Gate 4 ") = ("", "", "Gate 4")
  /\ parse_site_name (VInt 7) = ("", "", "")
  /\ exists a b rest : string,
       "N - 12 - Main-Gate" = a ++ "-" ++ b ++ "-" ++ rest
       /\ PyStr.count "-" a = 0%nat /\ PyStr.count "-" b = 0%nat
       /\ parse_site_name (VStr "N - 12 - Main-Gate")
          = (PyStr.strip a, PyStr.strip b, PyStr.strip rest).
Proof.
  split; [|split].
  - apply (proj1 (proj2 parse_site_name_spec) " Gate 4 "). vm_compute. lia.
  - apply (proj2 (proj2 parse_site_name_spec) (VInt 7)). intros s. discriminate.
  - apply (proj1 parse_site_name_spec "N - 12 - Main-Gate"). vm_compute. lia.
Defined.

(** ** Identifier patterns *)

Lemma string_app_cons c (a b : string) : String c a ++ b = String c (a ++ b).
Proof. reflexivity. Qed.

Lemma take_while_all p s : forallb p (list_ascii_of_string (take_while p s)) = true.
Proof.
  induction s as [|c s IH]; simpl; [reflexivity|].
  destruct (p c) eqn:Hc; simpl; [rewrite Hc; exact IH | reflexivity].
Qed.

Lemma take_drop_while p s : take_while p s ++ drop_while p s = s.
Proof.
  induction s as [|c s IH]; simpl; [reflexivity|].
  destruct (p c); [rewrite string_app_cons, IH|]; reflexivity.
Qed.

Lemma drop_while_head p s c t : drop_while p s = String c t -> p c = false.
Proof.
  induction s as [|a s IH]; simpl; [discriminate|].
  destruct (p a) eqn:Ha; [exact IH|]. intros [= -> _]. exact Ha.
Qed.

Lemma drop_prefix_app p s rest : drop_prefix p s = Some rest -> s = p ++ rest.
Proof.
  revert s. induction p as [|a p IH]; intros [|b s]; simpl; try discriminate.
  - intros [= <-]. reflexivity.
  - intros [= <-]. reflexivity.
  - destruct (Ascii.eqb a b) eqn:Hab; [|discriminate].
    apply Ascii.eqb_eq in Hab as ->. intros H. rewrite (IH _ H). reflexivity.
Qed.

Lemma string_app_assoc (a b c : string) : (a ++ b) ++ c = a ++ b ++ c.
Proof.
  induction a as [|x a IH]; [reflexivity|]. rewrite !string_app_cons, IH. reflexivity.
Qed.

Lemma prefix_app p s : String.prefix p s = true -> exists t, s = p ++ t.
Proof.
  revert s. induction p as [|a p IH]; intros [|b s]; simpl.
  - exists "". reflexivity.
  - exists (String b s). reflexivity.
  - discriminate.
  - destruct (ascii_dec a b) as [->|]; [|discriminate].
    intros H. destruct (IH _ H) as [t ->]. exists t. reflexivity.
Qed.

Lemma match_id_here_sound before after s g :
  match_id_here before after s = Some g ->
  PyStr.truthy g = true
  /\ forallb is_id_char (list_ascii_of_string g) = true
  /\ exists post,
       s = before ++ g ++ after ++ post
       /\ match after ++ post with
          | String c _ => is_id_char c = false
          | EmptyString => True
          end.
Proof.
  unfold match_id_here.
  destruct (drop_prefix before s) as [rest|] eqn:Hp; [|discriminate].
  destruct (PyStr.truthy (take_while is_id_char rest)
            && PyStr.startswith (drop_while is_id_char rest) after) eqn:Hc;
    [|discriminate].
  intros [= <-]. apply andb_prop in Hc as [Hg Ha].
  split; [exact Hg|]. split; [apply take_while_all|].
  apply prefix_app in Ha as [post Hpost]. exists post. split.
  - rewrite (drop_prefix_app _ _ _ Hp). f_equal.
    rewrite <- Hpost. symmetry. apply take_drop_while.
  - rewrite <- Hpost. destruct (drop_while is_id_char rest) eqn:Hd; [exact I|].
    eapply drop_while_head. exact Hd.
Qed.

(** What a successful search returns: a non-empty run of characters of the
    class, as long as it can be, right after [before] and right before
    [after]. *)
Lemma re_search_id_sound before after s g :
  re_search_id before after s = Some g ->
  PyStr.truthy g = true
  /\ forallb is_id_char (list_ascii_of_string g) = true
  /\ exists pre post,
       s = pre ++ before ++ g ++ after ++ post
       /\ match after ++ post with
          | String c _ => is_id_char c = false
          | EmptyString => True
          end.
Proof.
  induction s as [|c s IH]; cbn [re_search_id];
    destruct (match_id_here before after _) as [g'|] eqn:Hm.
  - intros [= ->]. destruct (match_id_here_sound _ _ _ _ Hm) as (Hg & Hall & post & Hs & Hp).
    split; [exact Hg|]. split; [exact Hall|]. exists "", post. split; assumption.
  - discriminate.
  - intros [= ->]. destruct (match_id_here_sound _ _ _ _ Hm) as (Hg & Hall & post & Hs & Hp).
    split; [exact Hg|]. split; [exact Hall|]. exists "", post. split; assumption.
  - intros H. destruct (IH H) as (Hg & Hall & pre & post & -> & Hpost).
    split; [exact Hg|]. split; [exact Hall|].
    exists (String c pre), post. split; [reflexivity | exact Hpost].
Qed.

Lemma drop_prefix_of_app p s : drop_prefix p (p ++ s) = Some s.
Proof.
  induction p as [|a p IH]; [destruct s; reflexivity|].
  rewrite string_app_cons. cbn [drop_prefix]. rewrite Ascii.eqb_refl. exact IH.
Qed.

Lemma prefix_of_app p s : String.prefix p (p ++ s) = true.
Proof.
  induction p as [|a p IH]; [destruct s; reflexivity|].
  rewrite string_app_cons. cbn [String.prefix].
  destruct (ascii_dec a a); [exact IH | contradiction].
Qed.

Lemma take_drop_while_run p g rest :
  forallb p (list_ascii_of_string g) = true ->
  match rest with String c _ => p c = false | EmptyString => True end ->
  take_while p (g ++ rest) = g /\ drop_while p (g ++ rest) = rest.
Proof.
  intros Hg Hrest. induction g as [|a g IH].
  - destruct rest as [|c rest]; [split; reflexivity|].
    change ("" ++ String c rest) with (String c rest).
    cbn [take_while drop_while]. rewrite Hrest. split; reflexivity.
  - cbn [list_ascii_of_string forallb] in Hg. apply andb_prop in Hg as [Ha Hg].
    destruct (IH Hg) as [Ht Hd]. rewrite string_app_cons.
    cbn [take_while drop_while]. rewrite Ha, Ht, Hd. split; reflexivity.
Qed.

(** A string that holds [before], a non-empty run of the class that cannot
    be made longer, and [after] is found by the search. *)
Lemma re_search_id_complete before after pre g post :
  PyStr.truthy g = true ->
  forallb is_id_char (list_ascii_of_string g) = true ->
  match after ++ post with String c _ => is_id_char c = false | EmptyString => True end ->
  is_Some (re_search_id before after (pre ++ before ++ g ++ after ++ post)).
Proof.
  intros Hg Hall Hnext.
  assert (Hhere : match_id_here before after (before ++ g ++ after ++ post) = Some g).
  { unfold match_id_here. rewrite drop_prefix_of_app.
    destruct (take_drop_while_run is_id_char g (after ++ post) Hall Hnext) as [-> ->].
    rewrite Hg. unfold PyStr.startswith. rewrite prefix_of_app. reflexivity. }
  assert (Hfound : forall s, match_id_here before after s = Some g ->
                             re_search_id before after s = Some g).
  { intros s Hs. destruct s; cbn [re_search_id]; rewrite Hs; reflexivity. }
  induction pre as [|c pre IH].
  - change ("" ++ before ++ g ++ after ++ post) with (before ++ g ++ after ++ post).
    rewrite (Hfound _ Hhere). eauto.
  - rewrite string_app_cons. cbn [re_search_id].
    destruct (match_id_here before after (String c _)); [eauto | exact IH].
Qed.

Lemma extract_drive_file_id_cases url :
  match re_search_id "id=" "" url, re_search_id "/d/" "/" url with
  | Some g, _ => extract_drive_file_id url = g /\ PyStr.truthy g = true
  | None, Some g => extract_drive_file_id url = g /\ PyStr.truthy g = true
  | None, None => extract_drive_file_id url = ""
  end.
Proof.
  unfold extract_drive_file_id.
  destruct (re_search_id "id=" "" url) as [g|] eqn:H1.
  - split; [reflexivity|]. apply (re_search_id_sound _ _ _ _ H1).
  - destruct (re_search_id "/d/" "/" url) as [g|] eqn:H2; [|reflexivity].
    split; [reflexivity|]. apply (re_search_id_sound _ _ _ _ H2).
Qed.

(** ** Remote image fetcher *)

(** The fetcher written without exceptions: it always returns. *)
Lemma download_drive_image_total (w : World) (url : string) :
  download_drive_image w url =
  Ok (let file_id := extract_drive_file_id url in
      if PyStr.truthy file_id then
        match requests_get w (download_url file_id) with
        | Ok r =>
            if (status_code r =? 200)
               && PyStr.startswith (default "" (content_type r)) "image/"
            then Some (content r) else None
        | Raise _ => None
        end
      else None).
Proof.
  unfold download_drive_image, try_except, mbind, result_bind, bind.
  destruct (PyStr.truthy (extract_drive_file_id url)); [|reflexivity].
  cbv zeta. cbn [negb].
  destruct (requests_get w _) as [r|e]; [|reflexivity].
  destruct (status_code r =? 200); [|reflexivity].
  cbn [andb]. destruct (PyStr.startswith _ _); reflexivity.
Qed.

(** C7: the fetcher never raises; it returns the bytes of the response
    exactly when a file identifier is found (by [id=<id>], or failing that
    by [/d/<id>/]), the request to the export URL of that identifier
    returns, its status is 200 and its Content-Type starts with [image/];
    in every other case it returns [None]. *)
Theorem download_drive_image_spec (w : World) (url : string) :
  (exists o, download_drive_image w url = Ok o)
  /\ (forall b : bytes,
        download_drive_image w url = Ok (Some b) <->
        exists file_id r ct,
          (re_search_id "id=" "" url = Some file_id
           \/ re_search_id "id=" "" url = None
              /\ re_search_id "/d/" "/" url = Some file_id)
          /\ requests_get w (download_url file_id) = Ok r
          /\ status_code r = 200
          /\ content_type r = Some ct
          /\ PyStr.startswith ct "image/" = true
          /\ b = content r)
  /\ ((forall b, download_drive_image w url <> Ok (Some b))
      -> download_drive_image w url = Ok None).
Proof.
  rewrite download_drive_image_total.
  split; [eauto|]. split.
  - intros b. pose proof (extract_drive_file_id_cases url) as Hid. split.
    + intros [= H]. cbv zeta in H.
      destruct (PyStr.truthy (extract_drive_file_id url)) eqn:Ht; [|discriminate].
      destruct (requests_get w _) as [r|e] eqn:Hr; [|discriminate].
      destruct (Z.eqb_spec (status_code r) 200) as [Hs|Hs]; [|discriminate].
      cbn [andb] in H.
      destruct (content_type r) as [ct|] eqn:Hct; [|cbn in H; discriminate].
      change (default "" (Some ct)) with ct in H.
      destruct (PyStr.startswith ct "image/") eqn:Hp; [|discriminate].
      injection H as <-.
      exists (extract_drive_file_id url), r, ct.
      repeat split; try assumption.
      destruct (re_search_id "id=" "" url) as [g1|];
        [|destruct (re_search_id "/d/" "/" url) as [g2|]].
      * left. destruct Hid as [-> _]. reflexivity.
      * right. destruct Hid as [-> _]. auto.
      * rewrite Hid in Ht. discriminate.
    + intros (f & r & ct & Hf & Hr & Hs & Hct & Hp & ->).
      assert (extract_drive_file_id url = f /\ PyStr.truthy f = true) as [-> Ht].
      { destruct Hf as [Hf | [Hf1 Hf]].
        - rewrite Hf in Hid. exact Hid.
        - rewrite Hf1, Hf in Hid. exact Hid. }
      cbv zeta. rewrite Ht, Hr, Hs, Hct.
      change (default "" (Some ct)) with ct. rewrite Hp. reflexivity.
  - intros H. cbv zeta in *.
    destruct (PyStr.truthy _); [|reflexivity].
    destruct (requests_get w _) as [r|e]; [|reflexivity].
    destruct (_ && _); [|reflexivity].
    exfalso. eapply H. reflexivity.
Qed.

Lemma download_drive_image_spec_witness :
  download_drive_image (demo_world true) "https://drive.google.com/file/d/PNG1/view"
  = Ok (Some demo_png).
Proof.
  apply (proj2 (proj1 (proj2 (download_drive_image_spec (demo_world true)
           "https://drive.google.com/file/d/PNG1/view")) demo_png)).
  exists "PNG1", (Response 200 (Some "image/png") demo_png), "image/png".
  repeat split. right. split; reflexivity.
Defined.

(** ** Loops that collect *)

Lemma for_each_collect {A B} (f : list B -> A -> result (list B)) (g : A -> list B) :
  (forall s a, f s a = Ok (s ++ g a)%list) ->
  forall l s, for_each f s l = Ok (s ++ concat (g <$> l))%list.
Proof.
  intros Hf. induction l as [|a l IH]; intros s; simpl.
  - rewrite app_nil_r. reflexivity.
  - rewrite Hf. cbn. rewrite IH, <- app_assoc. reflexivity.
Qed.

Lemma collect_fetched {B} (w : World) (h : string -> bytes -> B) (urls : list string) :
  concat ((fun url => match download_drive_image w url with
                      | Ok (Some b) => [h url b]
                      | _ => []
                      end) <$> urls)
  = (fun ub => h ub.1 ub.2) <$> fetched w urls.
Proof.
  unfold fetched. induction urls as [|u urls IH]; [reflexivity|].
  cbn [fmap list_fmap concat omap list_omap].
  destruct (download_drive_image w u) as [[b|]|e]; cbn; rewrite IH; reflexivity.
Qed.

Lemma fetched_length (w : World) (urls : list string) :
  (length (fetched w urls) <= length urls)%nat.
Proof.
  unfold fetched. induction urls as [|u urls IH]; [reflexivity|].
  cbn [omap list_omap]. destruct (download_drive_image w u) as [[b|]|e]; cbn [length]; lia.
Qed.

Lemma image_urls_length (images_raw : string) :
  (length (image_urls images_raw) <= length (PyStr.split "," images_raw))%nat.
Proof. unfold image_urls. rewrite length_fmap. apply length_filter. Qed.

(** ** Preview images *)

Lemma get_image_data_uris_for_row_eq (w : World) (r : row) :
  get_image_data_uris_for_row w r
  = Ok ((fun ub => image_bytes_to_data_uri ub.2 (mime_of_url ub.1))
          <$> fetched w (row_image_urls r)).
Proof.
  unfold get_image_data_uris_for_row, row_image_urls.
  destruct (PyStr.truthy (str_or_empty r "Images")); [|reflexivity].
  cbn [negb].
  rewrite (for_each_collect _
             (fun url => match download_drive_image w url with
                         | Ok (Some b) => [image_bytes_to_data_uri b (mime_of_url url)]
                         | _ => []
                         end)).
  - rewrite (collect_fetched w (fun u b => image_bytes_to_data_uri b (mime_of_url u))).
    reflexivity.
  - intros s url. rewrite download_drive_image_total.
    cbn. destruct (PyStr.truthy _); [|rewrite app_nil_r; reflexivity].
    destruct (requests_get w _) as [resp|e]; [|rewrite app_nil_r; reflexivity].
    destruct (_ && _); [reflexivity | rewrite app_nil_r; reflexivity].
Qed.

Lemma split_no_sep (sep : ascii) (s : string) :
  PyStr.count sep s = 0%nat -> PyStr.split sep s = [s].
Proof.
  induction s as [|c s IH]; intros H; [reflexivity|].
  apply count_cons_0 in H as [Hc Hs]. cbn [PyStr.split]. rewrite Hc, (IH Hs). reflexivity.
Qed.

Lemma split_first (sep : ascii) (a t : string) :
  PyStr.count sep a = 0%nat ->
  PyStr.split sep (a ++ String sep t) = a :: PyStr.split sep t.
Proof.
  induction a as [|c a IH]; intros H.
  - change ("" ++ String sep t) with (String sep t). cbn [PyStr.split].
    rewrite Ascii.eqb_refl. reflexivity.
  - apply count_cons_0 in H as [Hc Ha]. rewrite string_app_cons. cbn [PyStr.split].
    rewrite Hc, (IH Ha). reflexivity.
Qed.

Lemma split_not_nil (sep : ascii) (s : string) : PyStr.split sep s <> [].
Proof.
  destruct s as [|c s]; [discriminate|]. cbn [PyStr.split].
  destruct (Ascii.eqb c sep); [discriminate|].
  destruct (PyStr.split sep s); discriminate.
Qed.

(** [(a + sep + t).split(sep) == a.split(sep) + t.split(sep)] *)
Lemma split_app (sep : ascii) (a t : string) :
  PyStr.split sep (a ++ String sep t) = (PyStr.split sep a ++ PyStr.split sep t)%list.
Proof.
  induction a as [|c a IH].
  - change ("" ++ String sep t) with (String sep t). cbn [PyStr.split].
    rewrite Ascii.eqb_refl. reflexivity.
  - rewrite string_app_cons. cbn [PyStr.split]. rewrite IH.
    destruct (Ascii.eqb c sep); [reflexivity|].
    pose proof (split_not_nil sep a) as Hne.
    destruct (PyStr.split sep a); [contradiction | reflexivity].
Qed.

Lemma count_app (c : ascii) (a b : string) :
  PyStr.count c (a ++ b) = (PyStr.count c a + PyStr.count c b)%nat.
Proof.
  induction a as [|x a IH]; [reflexivity|]. rewrite string_app_cons.
  cbn [PyStr.count]. rewrite IH. lia.
Qed.

Lemma url_extension_query (u q : string) :
  PyStr.count "?" u = 0%nat -> url_extension (u ++ "?" ++ q) = url_extension u.
Proof.
  intros Hu. unfold url_extension.
  change (u ++ "?" ++ q) with (u ++ String "?" q).
  rewrite split_app, (split_no_sep "?" u Hu). reflexivity.
Qed.

Lemma url_extension_last (a t : string) :
  PyStr.count "?" (a ++ String "." t) = 0%nat -> PyStr.count "." t = 0%nat ->
  url_extension (a ++ String "." t) = PyStr.lower t.
Proof.
  intros Hq Ht. unfold url_extension.
  rewrite (split_no_sep "?" _ Hq). cbn [PyStr.first_piece hd].
  rewrite split_app, (split_no_sep "." t Ht). unfold PyStr.last_piece.
  rewrite last_last. reflexivity.
Qed.

(** C10: the preview labels every picture it downloaded with the MIME type
    of the link's extension, the text after the last dot of the part of the
    link before its first question mark, in lower case: [jpg] and [jpeg]
    give [image/jpeg], [png] gives [image/png], anything else
    [image/jpeg].  The type is a function of the link alone: the
    Content-Type of the response plays no part in it. *)
Theorem preview_mime_from_extension (w : World) (r : row) :
  get_image_data_uris_for_row w r
  = Ok ((fun ub => "data:" ++ mime_of_url ub.1 ++ ";base64," ++ b64encode ub.2)
          <$> fetched w (row_image_urls r))
  /\ (forall url : string,
        (url_extension url = "jpg" \/ url_extension url = "jpeg" ->
         mime_of_url url = "image/jpeg")
        /\ (url_extension url = "png" -> mime_of_url url = "image/png")
        /\ (url_extension url <> "png" -> mime_of_url url = "image/jpeg"))
  /\ (forall a ext q : string,
        PyStr.count "?" a = 0%nat ->
        PyStr.count "?" ext = 0%nat -> PyStr.count "." ext = 0%nat ->
        url_extension (a ++ "." ++ ext) = PyStr.lower ext
        /\ url_extension (a ++ "." ++ ext ++ "?" ++ q) = PyStr.lower ext
        /\ (PyStr.lower ext = "png" ->
            mime_of_url (a ++ "." ++ ext) = "image/png"
            /\ mime_of_url (a ++ "." ++ ext ++ "?" ++ q) = "image/png")
        /\ (PyStr.lower ext <> "png" ->
            mime_of_url (a ++ "." ++ ext) = "image/jpeg"
            /\ mime_of_url (a ++ "." ++ ext ++ "?" ++ q) = "image/jpeg"))
  /\ (forall u q : string,
        PyStr.count "?" u = 0%nat -> PyStr.count "." u = 0%nat ->
        url_extension u = PyStr.lower u
        /\ url_extension (u ++ "?" ++ q) = PyStr.lower u).
Proof.
  assert (Hmime : forall url : string,
            (url_extension url = "jpg" \/ url_extension url = "jpeg" ->
             mime_of_url url = "image/jpeg")
            /\ (url_extension url = "png" -> mime_of_url url = "image/png")
            /\ (url_extension url <> "png" -> mime_of_url url = "image/jpeg")).
  { intros url. unfold mime_of_url. cbv zeta. repeat split.
    - intros [-> | ->]; reflexivity.
    - intros ->. reflexivity.
    - intros H. destruct (String.eqb _ "jpg" || String.eqb _ "jpeg"); [reflexivity|].
      destruct (String.eqb_spec (url_extension url) "png"); [contradiction | reflexivity]. }
  split; [apply get_image_data_uris_for_row_eq|]. split; [exact Hmime|]. split.
  - intros a ext q Ha Hq Hd.
    assert (H1 : url_extension (a ++ "." ++ ext) = PyStr.lower ext).
    { change (a ++ "." ++ ext) with (a ++ String "." ext).
      apply url_extension_last; [|exact Hd].
      rewrite count_app. cbn [PyStr.count]. rewrite Ha, Hq. reflexivity. }
    assert (H2 : url_extension (a ++ "." ++ ext ++ "?" ++ q) = PyStr.lower ext).
    { rewrite <- H1.
      change (a ++ "." ++ ext ++ "?" ++ q) with (a ++ ("." ++ ext) ++ "?" ++ q).
      rewrite <- (string_app_assoc a ("." ++ ext) ("?" ++ q)).
      apply url_extension_query.
      change (a ++ "." ++ ext) with (a ++ String "." ext).
      rewrite count_app. cbn [PyStr.count]. rewrite Ha, Hq. reflexivity. }
    split; [exact H1|]. split; [exact H2|]. split.
    + intros Hp. split; apply Hmime; congruence.
    + intros Hp. split; apply Hmime; congruence.
  - intros u q Hq Hd.
    assert (H1 : url_extension u = PyStr.lower u).
    { unfold url_extension. rewrite (split_no_sep "?" u Hq). cbn [PyStr.first_piece hd].
      rewrite (split_no_sep "." u Hd). reflexivity. }
    split; [exact H1|]. rewrite <- H1. apply url_extension_query, Hq.
Qed.

(** A picture behind a link that ends in [.PNG] is labelled [image/png],
    with or without a query; a PNG picture served as [image/png] from a
    link that ends in no known extension is labelled [image/jpeg]. *)
Lemma preview_mime_from_extension_witness :
  url_extension "https://example.org/a.PNG?size=big" = "png"
  /\ mime_of_url "https://example.org/a.PNG?size=big" = "image/png"
  /\ mime_of_url "https://example.org/a.webp" = "image/jpeg"
  /\ mime_of_url "https://drive.google.com/open?id=PNG1" = "image/jpeg"
  /\ get_image_data_uris_for_row (demo_world true)
       (demo_row VNaN VNaN (VStr "https://drive.google.com/open?id=PNG1"))
     = Ok ["data:image/jpeg;base64,iVBORw0KGgoA"]
  /\ get_image_data_uris_for_row (demo_world true)
       (demo_row VNaN VNaN (VStr "https://drive.google.com/file/d/PNG1/view.png"))
     = Ok ["data:image/png;base64,iVBORw0KGgoA"].
Proof.
  pose proof (proj1 (proj2 (proj2 (preview_mime_from_extension (demo_world true) ∅)))
                "https://example.org/a" "PNG" "size=big" eq_refl eq_refl eq_refl)
    as (_ & Hext & Hpng & _).
  pose proof (proj1 (proj2 (proj2 (preview_mime_from_extension (demo_world true) ∅)))
                "https://example.org/a" "webp" "" eq_refl eq_refl eq_refl)
    as (_ & _ & _ & Hother).
  split; [exact Hext|].
  split; [exact (proj2 (Hpng eq_refl))|].
  split; [apply Hother; discriminate|].
  split; [|split].
  - apply (proj1 (proj2 (preview_mime_from_extension (demo_world true) ∅))
             "https://drive.google.com/open?id=PNG1").
    vm_compute. discriminate.
  - rewrite (proj1 (preview_mime_from_extension (demo_world true) _)).
    vm_compute. reflexivity.
  - rewrite (proj1 (preview_mime_from_extension (demo_world true) _)).
    vm_compute. reflexivity.
Defined.

(** ** Row context builder *)

Lemma formatted_date_eq (w : World) (r : row) :
  formatted_date w r = Ok (date_text w r).
Proof.
  unfold formatted_date, date_text, row_get.
  destruct (r !! "Date_parsed") as [p|]; [|reflexivity].
  change (default VNone (Some p)) with p.
  destruct p; try reflexivity; cbn [is_None isna negb andb];
    match goal with |- try_except ?b _ = _ => destruct b end; reflexivity.
Qed.

Lemma build_context_from_row_eq (w : World) (r : row) :
  build_context_from_row w r
  = Ok (blank_null <$> list_to_map (context_items r (date_text w r))).
Proof. unfold build_context_from_row. rewrite formatted_date_eq. reflexivity. Qed.

Lemma context_items_keys (r : row) (fd : string) :
  (context_items r fd).*1 = field_source.*1.
Proof.
  unfold context_items. destruct (parse_site_name _) as [[zone unit_code] sitename].
  reflexivity.
Qed.

Lemma field_source_NoDup : NoDup (field_source.*1).
Proof. apply (bool_decide_unpack (NoDup (field_source.*1))). vm_compute. exact I. Qed.

(** A field of the built context holds the item of that name, nulls
    blanked. *)
Lemma context_lookup (r : row) (fd f : string) (v : value) :
  (f, v) ∈ context_items r fd ->
  (blank_null <$> (list_to_map (context_items r fd) : gmap string value)) !! f
  = Some (blank_null v).
Proof.
  intros H. rewrite lookup_fmap.
  rewrite (elem_of_list_to_map_1 (context_items r fd) f v); [reflexivity| |exact H].
  rewrite context_items_keys. exact field_source_NoDup.
Qed.

Lemma blank_null_not_na (v : value) : isna (blank_null v) = false.
Proof. destruct v; reflexivity. Qed.

Lemma context_dom (r : row) (fd : string) :
  dom (blank_null <$> (list_to_map (context_items r fd) : gmap string value))
  = list_to_set (field_source.*1).
Proof. rewrite dom_fmap_L, dom_list_to_map_L, context_items_keys. reflexivity. Qed.

Lemma row_get_missing_or_null (r : row) (col : string) :
  missing_or_null r col -> blank_null (row_get r col (VStr "")) = VStr "".
Proof.
  unfold missing_or_null, row_get. destruct (r !! col) as [v|]; [|reflexivity].
  change (default (VStr "") (Some v)) with v. unfold blank_null. intros ->. reflexivity.
Qed.

Lemma site_missing_or_null (r : row) :
  missing_or_null r "Site Name" ->
  parse_site_name (row_get r "Site Name" (VStr "")) = ("", "", "")
  /\ blank_null (row_get r "Site Name" (VStr "")) = VStr "".
Proof.
  intros H. split; [|apply row_get_missing_or_null, H].
  unfold missing_or_null, row_get in *. destruct (r !! "Site Name") as [v|]; [|reflexivity].
  change (default (VStr "") (Some v)) with v. destruct v; try reflexivity; discriminate H.
Qed.

Ltac item_here :=
  unfold context_items;
  match goal with |- context [parse_site_name ?v] => destruct (parse_site_name v) as [[? ?] ?] end;
  rewrite !elem_of_cons; repeat ((left; reflexivity) || right).

Lemma context_date (r : row) (fd : string) :
  (blank_null <$> (list_to_map (context_items r fd) : gmap string value)) !! "date"
  = Some (VStr fd).
Proof. apply (context_lookup r fd "date" (VStr fd)). item_here. Qed.


Lemma of_Z_four_digits (y : Z) : 1000 <= y <= 9999 -> PyStr.of_Z y = pad 4 y.
Proof.
  intros Hy.
  assert (H : forallb (fun y => String.eqb (PyStr.of_Z y) (pad 4 y)) (seqZ 1000 9000) = true)
    by (vm_compute; reflexivity).
  rewrite forallb_forall in H. apply String.eqb_eq, H.
  apply list_elem_of_In, elem_of_seqZ. lia.
Qed.

Lemma valid_date_year (d : date) : valid_date d = true -> 1 <= year d <= 9999.
Proof. unfold valid_date. intros H. repeat (apply andb_prop in H as [H ?]). lia. Qed.



(** C6, as the specification states it, fails for the [date] field: at a row whose
    "Date" cell is null (NaN) and that has no pre-parsed date, the field is
    the text ["nan"], not the empty string. *)
Lemma null_date_counterexample :
  (missing_or_null {[ "Date" := VNaN ]} "Date"
   /\ exists ctx, build_context_from_row (demo_world true) {[ "Date" := VNaN ]} = Ok ctx
                  /\ ctx !! "date" = Some (VStr "nan"))
  /\ ~ (forall (w : World) (r : row) (ctx : gmap string value) (f col : string),
          build_context_from_row w r = Ok ctx ->
          (f, col) ∈ field_source -> missing_or_null r col ->
          ctx !! f = Some (VStr "")).
Proof.
  assert (H0 : date_text (demo_world true) {[ "Date" := VNaN ]} = "nan") by reflexivity.
  assert (Hin : ("date", "Date") ∈ field_source).
  { unfold field_source. rewrite !elem_of_cons. repeat ((left; reflexivity) || right). }
  split.
  - split; [reflexivity|]. eexists. split; [apply build_context_from_row_eq|].
    rewrite context_date, H0. reflexivity.
  - intros H.
    specialize (H (demo_world true) {[ "Date" := VNaN ]} _ "date" "Date"
                  (build_context_from_row_eq _ _) Hin eq_refl).
    rewrite context_date, H0 in H. discriminate H.
Qed.

(** C6, amended: the builder returns a context for every row; the context
    holds the fourteen recognised fields and no other; no field is a null
    marker; every field other than [date] whose source column is missing or
    null is the empty string (so a row without "Observation" has
    [observation = ""]); and [date] is the empty string when the row has no
    pre-parsed date and its "Date" column is missing or [None]. *)
Theorem build_context_from_row_total (w : World) (r : row) :
  exists ctx, build_context_from_row w r = Ok ctx
  /\ dom ctx = list_to_set (field_source.*1)
  /\ (forall f, f ∈ field_source.*1 -> exists v, ctx !! f = Some v /\ isna v = false)
  /\ (forall f col, (f, col) ∈ field_source -> f <> "date" -> missing_or_null r col ->
        ctx !! f = Some (VStr ""))
  /\ (r !! "Observation" = None -> ctx !! "observation" = Some (VStr ""))
  /\ (missing_or_null r "Date_parsed" ->
      r !! "Date" = None \/ r !! "Date" = Some VNone ->
      ctx !! "date" = Some (VStr "")).
Proof.
  eexists. split; [apply build_context_from_row_eq|].
  set (fd := date_text w r).
  split; [apply context_dom|]. split; [|split; [|split]].
  - intros f Hf. rewrite <- (context_items_keys r fd) in Hf.
    apply list_elem_of_fmap in Hf as ([f' v] & -> & Hin).
    exists (blank_null v). split; [apply context_lookup, Hin | apply blank_null_not_na].
  - intros f col Hin Hf Hnull.
    assert (Hsite : missing_or_null r "Site Name" ->
                    context_items r fd !! 0%nat = Some ("zone", VStr "")
                    /\ context_items r fd !! 1%nat = Some ("unit_code", VStr "")
                    /\ exists v, context_items r fd !! 2%nat = Some ("site_name", v)
                                 /\ blank_null v = VStr "").
    { intros Hs. destruct (site_missing_or_null r Hs) as [Hp Hb].
      unfold context_items. rewrite Hp. repeat split.
      eexists. split; [reflexivity|]. exact Hb. }
    unfold field_source in Hin.
    repeat (apply elem_of_cons in Hin as [[= -> ->]|Hin]);
      try (apply elem_of_nil in Hin; contradiction);
      try contradiction.
    1: { destruct (Hsite Hnull) as (Hz & _).
         apply (context_lookup r fd "zone" (VStr "")).
         eapply list_elem_of_lookup_2, Hz. }
    1: { destruct (Hsite Hnull) as (_ & Hu & _).
         apply (context_lookup r fd "unit_code" (VStr "")).
         eapply list_elem_of_lookup_2, Hu. }
    1: { destruct (Hsite Hnull) as (_ & _ & v & Hv & Hb).
         rewrite <- Hb. apply context_lookup. eapply list_elem_of_lookup_2, Hv. }
    all: rewrite <- (row_get_missing_or_null r _ Hnull); apply context_lookup; item_here.
  - intros Hobs.
    rewrite <- (row_get_missing_or_null r "Observation"); [apply context_lookup; item_here|].
    unfold missing_or_null. rewrite Hobs. exact I.
  - intros Hp Hd. rewrite context_date. f_equal. f_equal.
    unfold fd, date_text, missing_or_null, str_or_empty, row_get in *.
    assert (Hs : py_str (py_or (default (VStr "") (r !! "Date")) (VStr "")) = "").
    { destruct Hd as [-> | ->]; reflexivity. }
    destruct (r !! "Date_parsed") as [p|]; [rewrite Hp|]; exact Hs.
Qed.

Lemma build_context_from_row_total_witness :
  exists ctx,
    build_context_from_row (demo_world true) (demo_row VNone VNaN VNaN) = Ok ctx
    /\ ctx !! "observation" = Some (VStr "")
    /\ ctx !! "inspected_by" = Some (VStr "")
    /\ ctx !! "zone" = Some (VStr "")
    /\ ctx !! "date" = Some (VStr "").
Proof.
  destruct (build_context_from_row_total (demo_world true) (demo_row VNone VNaN VNaN))
    as (ctx & Hctx & _ & _ & Hnull & _ & Hdate).
  exists ctx. split; [exact Hctx|]. repeat split.
  - apply (Hnull "observation" "Observation"); [|discriminate|reflexivity].
    unfold field_source. rewrite !elem_of_cons. repeat ((left; reflexivity) || right).
  - apply (Hnull "inspected_by" "Inspected By"); [|discriminate|reflexivity].
    unfold field_source. rewrite !elem_of_cons. repeat ((left; reflexivity) || right).
  - apply (Hnull "zone" "Site Name"); [|discriminate|reflexivity].
    unfold field_source. rewrite !elem_of_cons. repeat ((left; reflexivity) || right).
  - apply Hdate; [reflexivity | right; reflexivity].
Defined.

(** ** Date filter *)

Lemma StronglySorted_sublist_of {A} (R : relation A) (l k : list A) :
  l `sublist_of` k -> StronglySorted R k -> StronglySorted R l.
Proof.
  induction 1 as [|x l k Hsub IH|x l k Hsub IH]; intros Hk.
  - constructor.
  - apply StronglySorted_cons in Hk as [Hx Hk]. apply StronglySorted_cons. split; [|auto].
    apply Forall_forall. intros y Hy. rewrite Forall_forall in Hx.
    apply Hx. eapply elem_of_sublist; eassumption.
  - apply StronglySorted_cons in Hk as [_ Hk]. auto.
Qed.

Lemma StronglySorted_lt_seq (j n : nat) : StronglySorted lt (seq j n).
Proof.
  revert j. induction n as [|n IH]; intros j; simpl; constructor; [apply IH|].
  apply Forall_forall. intros i Hi. apply elem_of_seq in Hi. lia.
Qed.

(** The labels of a selection of the rows come in increasing order. *)
Lemma filter_labels_sorted {A} (P : nat * A -> Prop) `{!forall x, Decision (P x)}
    (l : list A) :
  StronglySorted lt ((filter P (imap pair l)).*1).
Proof.
  apply (StronglySorted_sublist_of _ _ ((imap pair l).*1)).
  - apply fmap_sublist, sublist_filter.
  - rewrite fmap_imap.
    rewrite (imap_ext _ (fun i _ => i) l) by reflexivity.
    rewrite (imap_seq_0 l (fun i => i)), list_fmap_id. apply StronglySorted_lt_seq.
Qed.

Lemma date_is_true (target : date) (cell : value) :
  date_is target cell = true <-> exists t, cell = VTime t /\ ts_date t = target.
Proof.
  destruct cell; simpl; try (split; [discriminate | intros (t' & [=] & _)]).
  rewrite bool_decide_eq_true. split.
  - intros H. eauto.
  - intros (t' & [= <-] & H). exact H.
Qed.

(** The row at a label of the sheet, with its parsed date added, as the
    filter sees it. *)
Lemma with_parsed_lookup (w : World) (df : dataframe) (i : nat) (r' : row) :
  zip_with (fun r p => <["Date_parsed" := p]> r) (rows df)
    (to_datetime_coerce w (column df "Date")) !! i = Some r'
  <-> exists r, rows df !! i = Some r
        /\ r' = <["Date_parsed" :=
                   match infer_datetime w (column df "Date") i (row_get r "Date" VNaN) with
                   | Some t => VTime t
                   | None => VNaT
                   end]> r.
Proof.
  rewrite lookup_zip_with_Some. unfold to_datetime_coerce, column.
  setoid_rewrite list_lookup_imap. setoid_rewrite list_lookup_fmap. split.
  - intros (r & p & -> & Hr & Hp). exists r. split; [exact Hr|].
    rewrite Hr in Hp. injection Hp as <-. reflexivity.
  - intros (r & Hr & ->). eexists r, _. split; [reflexivity|]. split; [exact Hr|].
    rewrite Hr. reflexivity.
Qed.

(** C3: the filter keeps exactly the rows whose "Date" cell parses to a
    timestamp on the target calendar date, whatever its time of day; a row
    whose "Date" does not parse is left out; the rows kept stay in the
    order of the sheet, each once, with its parsed date. *)
Theorem filter_by_date_spec (w : World) (df : dataframe) (target : date) :
  (forall (i : nat) (r' : row),
     (i, r') ∈ filter_by_date w df target <->
     exists r t,
       rows df !! i = Some r
       /\ infer_datetime w (column df "Date") i (row_get r "Date" VNaN) = Some t
       /\ ts_date t = target
       /\ r' = <["Date_parsed" := VTime t]> r)
  /\ StronglySorted lt ((filter_by_date w df target).*1)
  /\ (forall (i : nat) (r : row),
        rows df !! i = Some r ->
        infer_datetime w (column df "Date") i (row_get r "Date" VNaN) = None ->
        i ∉ (filter_by_date w df target).*1)
  /\ (forall t t' : timestamp,
        ts_date t = ts_date t' -> date_is target (VTime t) = date_is target (VTime t')).
Proof.
  assert (Hiff : forall (i : nat) (r' : row),
     (i, r') ∈ filter_by_date w df target <->
     exists r t,
       rows df !! i = Some r
       /\ infer_datetime w (column df "Date") i (row_get r "Date" VNaN) = Some t
       /\ ts_date t = target
       /\ r' = <["Date_parsed" := VTime t]> r).
  { intros i r'. unfold filter_by_date. cbv zeta.
    rewrite list_elem_of_filter, elem_of_lookup_imap. cbn [snd]. split.
    - intros (Hd & i' & r'' & [= <- <-] & Hl).
      apply with_parsed_lookup in Hl as (r & Hr & ->).
      unfold row_get in Hd at 1. rewrite lookup_insert_eq in Hd.
      apply date_is_true in Hd as (t & Ht & Hdate).
      exists r, t. destruct (infer_datetime w _ i _) as [t'|]; [|discriminate].
      injection Ht as ->. auto.
    - intros (r & t & Hr & Ht & Hdate & ->). split.
      + unfold row_get at 1. rewrite lookup_insert_eq. apply date_is_true. eauto.
      + exists i, (<["Date_parsed" := VTime t]> r). split; [reflexivity|].
        apply with_parsed_lookup. exists r. rewrite Ht. auto. }
  split; [exact Hiff|]. split; [apply filter_labels_sorted|]. split.
  - intros i r Hr Hnone Hin.
    apply list_elem_of_fmap in Hin as ([i' r'] & Hi & Hin). cbn in Hi. subst i'.
    apply Hiff in Hin as (r0 & t & Hr0 & Ht & _).
    rewrite Hr in Hr0. injection Hr0 as <-. rewrite Hnone in Ht. discriminate.
  - intros t t' Ht. simpl. rewrite Ht. reflexivity.
Qed.

Lemma filter_by_date_spec_witness :
  (filter_by_date (demo_world true) demo_sheet (Date 2024 3 5)).*1 = [0; 3; 5]%nat
  /\ (3%nat, <["Date_parsed" := VTime (Timestamp (Date 2024 3 5) 0 0 0)]>
               (demo_row (VStr "2024-03-05") (VStr "N - 12 - Main Gate") VNaN))
     ∈ filter_by_date (demo_world true) demo_sheet (Date 2024 3 5)
  /\ 2%nat ∉ (filter_by_date (demo_world true) demo_sheet (Date 2024 3 5)).*1.
Proof.
  split; [vm_compute; reflexivity|]. split.
  - apply (proj1 (filter_by_date_spec (demo_world true) demo_sheet (Date 2024 3 5))).
    eexists _, _. repeat split; reflexivity.
  - apply (proj1 (proj2 (proj2 (filter_by_date_spec (demo_world true) demo_sheet
                                  (Date 2024 3 5))))
             2%nat (demo_row (VStr "not a date") (VStr "S-3-Depot") VNaN));
      reflexivity.
Defined.

(** ** Preview paginator *)

Lemma clamp_index_range (idx total : Z) :
  1 <= total ->
  0 <= clamp_index idx total <= total - 1
  /\ (idx < 0 -> clamp_index idx total = 0)
  /\ (idx > total - 1 -> clamp_index idx total = total - 1)
  /\ (0 <= idx <= total - 1 -> clamp_index idx total = idx).
Proof.
  intros Ht. unfold clamp_index.
  destruct (Z.ltb_spec idx 0); destruct (Z.gtb_spec 0 (total - 1));
    destruct (Z.gtb_spec idx (total - 1)); lia.
Qed.

Lemma iloc_in_range (df_date : list (nat * row)) (idx : Z) :
  0 <= idx <= Z.of_nat (length df_date) - 1 ->
  exists i r, df_date !! Z.to_nat idx = Some (i, r) /\ iloc df_date idx = Ok r.
Proof.
  intros H. unfold iloc.
  destruct (Z.ltb_spec idx 0); [lia|]. destruct (Z.ltb_spec idx 0); [lia|].
  destruct (lookup_lt_is_Some_2 df_date (Z.to_nat idx)) as [[i r] Hir]; [lia|].
  exists i, r. rewrite Hir. auto.
Qed.



(** ** Missing template *)

Lemma load_and_filter_no_file (w : World) (s : string) (g : option string) (d : string)
    (resp : http_response) :
  load_and_filter w s g d = inl resp ->
  forall n m z, resp <> SendFile n m z.
Proof.
  unfold load_and_filter, flash_redirect. intros H n m z ->.
  destruct (strptime_Ymd w d); [|discriminate].
  destruct (load_sheet_via_csv w s g); [|discriminate].
  destruct (negb _); [discriminate|].
  destruct (filter_by_date w _ _); discriminate.
Qed.

Lemma download_zip_no_template (w : World) (target : date) (df_date : list (nat * row)) :
  path_exists w "template.docx" = false ->
  download_zip w target None (Some "template.docx") df_date
  = flash_redirect template_missing_msg "error".
Proof. intros H. unfold download_zip. cbn. rewrite H. reflexivity. Qed.

(** What [index] answers once a request without upload has passed the
    checks made before the template is looked at. *)
Lemma index_after_checks (w : World) (req : request) (target : date)
    (df_date : list (nat * row)) :
  no_upload req ->
  reaches_action w req target df_date ->
  index w req
  = if String.eqb (form_get req "action" "download_zip") "download_zip" then
      download_zip w target None (Some "template.docx") df_date
    else if String.eqb (form_get req "action" "download_zip") "preview" then
      Redirect (PreviewPage (PyStr.strip (form_get req "sheet_input" ""))
                  (default "" (gid_of (form_get req "gid" "")))
                  (PyStr.strip (form_get req "date" "")) 0) None
    else flash_redirect "Unknown action." "error".
Proof.
  intros Hno (Hm & Hs & Hd & Hl). unfold index. cbv zeta.
  rewrite Hm, Hs, Hd, Hl.
  change (String.eqb "POST" "POST") with true. cbn [negb orb]. cbv iota.
  unfold no_upload in Hno. destruct (template_file req) as [u|]; [rewrite Hno|];
    reflexivity.
Qed.

(** C9: when the request brings no template and [template.docx] does not
    exist, [index] never answers with an archive; a download request that
    passes the earlier checks is answered with the template-missing error;
    and a preview request that passes them is redirected to the preview as
    usual, so the condition stops the download path only. *)
Theorem missing_template_stops_download (w : World) (req : request) :
  no_upload req ->
  path_exists w "template.docx" = false ->
  (forall n m z, index w req <> SendFile n m z)
  /\ (forall target df_date,
        reaches_action w req target df_date ->
        form_get req "action" "download_zip" = "download_zip" ->
        index w req
        = Redirect IndexPage
            (Some ("No template uploaded and template.docx not found in project folder.",
                   "error")))
  /\ (forall target df_date,
        reaches_action w req target df_date ->
        form_get req "action" "download_zip" = "preview" ->
        index w req
        = Redirect (PreviewPage (PyStr.strip (form_get req "sheet_input" ""))
                      (default "" (gid_of (form_get req "gid" "")))
                      (PyStr.strip (form_get req "date" "")) 0) None).
Proof.
  intros Hno Hpath.
  split; [|split].
  - intros n m z Hsend.
    destruct (String.eqb (method req) "POST") eqn:Hm.
    2: { unfold index in Hsend. rewrite Hm in Hsend. discriminate. }
    destruct (PyStr.truthy (PyStr.strip (form_get req "sheet_input" ""))) eqn:Hs.
    2: { unfold index in Hsend. cbv zeta in Hsend. rewrite Hm, Hs in Hsend. discriminate. }
    destruct (PyStr.truthy (PyStr.strip (form_get req "date" ""))) eqn:Hd.
    2: { unfold index in Hsend. cbv zeta in Hsend. rewrite Hm, Hs, Hd in Hsend.
         discriminate. }
    destruct (load_and_filter w (PyStr.strip (form_get req "sheet_input" ""))
                (gid_of (form_get req "gid" "")) (PyStr.strip (form_get req "date" "")))
      as [resp|[target df_date]] eqn:Hl.
    + unfold index in Hsend. cbv zeta in Hsend. rewrite Hm, Hs, Hd, Hl in Hsend.
      cbn [negb orb] in Hsend. eapply load_and_filter_no_file; eassumption.
    + apply String.eqb_eq in Hm.
      rewrite (index_after_checks w req target df_date Hno) in Hsend
        by (repeat split; assumption).
      rewrite download_zip_no_template in Hsend by exact Hpath.
      unfold flash_redirect in Hsend.
      destruct (String.eqb _ "download_zip"); [discriminate|].
      destruct (String.eqb _ "preview"); discriminate.
  - intros target df_date Hreach Ha.
    rewrite (index_after_checks w req target df_date Hno Hreach), Ha.
    change (String.eqb "download_zip" "download_zip") with true. cbv iota.
    apply download_zip_no_template, Hpath.
  - intros target df_date Hreach Ha.
    rewrite (index_after_checks w req target df_date Hno Hreach), Ha. reflexivity.
Qed.

Lemma missing_template_stops_download_witness :
  index (demo_world false) (demo_request "download_zip")
  = Redirect IndexPage
      (Some ("No template uploaded and template.docx not found in project folder.",
             "error"))
  /\ index (demo_world false) (demo_request "preview")
     = Redirect (PreviewPage "https://docs.google.com/spreadsheets/d/SHEET1/edit" ""
                   "2024-03-05" 0) None
  /\ (forall n m z, index (demo_world false) (demo_request "download_zip") <> SendFile n m z).
Proof.
  assert (Hno : no_upload (demo_request "download_zip")) by exact I.
  assert (Hno' : no_upload (demo_request "preview")) by exact I.
  assert (Hpath : path_exists (demo_world false) "template.docx" = false) by reflexivity.
  split; [|split].
  - apply (proj1 (proj2 (missing_template_stops_download (demo_world false)
                           (demo_request "download_zip") Hno Hpath))
             (Date 2024 3 5)
             (filter_by_date (demo_world false) demo_sheet (Date 2024 3 5)));
      [|reflexivity].
    repeat split; vm_compute; reflexivity.
  - apply (proj2 (proj2 (missing_template_stops_download (demo_world false)
                           (demo_request "preview") Hno' Hpath))
             (Date 2024 3 5)
             (filter_by_date (demo_world false) demo_sheet (Date 2024 3 5)));
      [|reflexivity].
    repeat split; vm_compute; reflexivity.
  - apply (proj1 (missing_template_stops_download (demo_world false)
                    (demo_request "download_zip") Hno Hpath)).
Defined.

(** ** Archive packager *)

Lemma archive_name_eq (target : date) (r : row) :
  archive_name target r = date_iso target ++ "_" ++ site_slug r ++ ".docx".
Proof.
  unfold archive_name, site_slug.
  destruct (parse_site_name _) as [[zone unit_code] sitename]. cbn [snd].
  destruct sitename; reflexivity.
Qed.

Lemma replace_no_space (s : string) : PyStr.count " " (PyStr.replace " " "_" s) = 0%nat.
Proof.
  induction s as [|c s IH]; [reflexivity|]. cbn [PyStr.replace PyStr.count].
  rewrite IH. destruct (Ascii.eqb c " ") eqn:Hc; [reflexivity|]. rewrite Hc. reflexivity.
Qed.

Lemma zip_rows_from (w : World) (target : date) (tb : option bytes) (tp : option string)
    (df_date : list (nat * row)) (docs : list bytes) (z0 : zipfile) :
  Forall2 (fun ir d => render_docx_row w ir.2 tb tp = Ok d) df_date docs ->
  for_each
    (fun zipf ir =>
       docx_buf ← render_docx_row w ir.2 tb tp;
       Ok (writestr zipf (archive_name target ir.2) docx_buf))
    z0 df_date
  = Ok (z0 ++ zip ((fun ir => archive_name target ir.2) <$> df_date) docs)%list.
Proof.
  intros H. revert z0. induction H as [|ir d l ds Hd _ IH]; intros z0; cbn [for_each].
  - cbn. rewrite app_nil_r. reflexivity.
  - rewrite Hd. cbn [mbind result_bind bind]. rewrite IH. unfold writestr.
    rewrite <- app_assoc. reflexivity.
Qed.

Lemma zip_read_absent (z : zipfile) (name : string) :
  (forall n d, (n, d) ∈ z -> n <> name) -> zip_read z name = None.
Proof.
  induction z as [|[n d] z IH]; intros H; [reflexivity|]. cbn [zip_read].
  rewrite IH by (intros n' d' Hin; apply (H n' d'); right; exact Hin).
  destruct (String.eqb_spec n name) as [Heq|]; [|reflexivity].
  exfalso. apply (H n d); [left | exact Heq].
Qed.

(** Reading a name finds the entry written last under it. *)
Lemma zip_read_last (z : zipfile) (k : nat) (name : string) (data : bytes) :
  z !! k = Some (name, data) ->
  (forall k' n d, (k < k')%nat -> z !! k' = Some (n, d) -> n <> name) ->
  zip_read z name = Some data.
Proof.
  revert k. induction z as [|[n0 d0] z IH]; intros k Hk Hlater; [discriminate|].
  cbn [zip_read]. destruct k as [|k].
  - injection Hk as -> ->. rewrite zip_read_absent.
    + rewrite String.eqb_refl. reflexivity.
    + intros n d Hin. apply list_elem_of_lookup in Hin as [j Hj].
      apply (Hlater (S j) n d); [lia | exact Hj].
  - rewrite (IH k); [reflexivity | exact Hk |].
    intros k' n d Hlt Hl. apply (Hlater (S k') n d); [lia | exact Hl].
Qed.

(** With a template at hand and every row rendered, the download path
    sends the archive under the name [night_checks_<date>.zip]. *)
Lemma download_zip_sends_archive (w : World) (target : date) (tb : option bytes)
    (tp : option string) (df_date : list (nat * row)) (z : zipfile) :
  bytes_truthy tb = true \/ (exists p, tp = Some p /\ path_exists w p = true) ->
  zip_rows w target tb tp df_date = Ok z ->
  download_zip w target tb tp df_date
  = SendFile ("night_checks_" ++ date_iso target ++ ".zip") "application/zip" z.
Proof.
  intros Htpl Hz. unfold download_zip. rewrite Hz.
  destruct (bytes_truthy tb); [reflexivity|].
  destruct Htpl as [Hb | (p & -> & Hp)]; [discriminate|].
  cbn. rewrite Hp. reflexivity.
Qed.




(** ** Document renderer *)

(** As long as the [InlineImage] constructor raises nothing but
    [UnrecognizedImageError], collecting the pictures of a row never
    fails: the list holds, in order, the downloaded pictures that the
    constructor accepted, and is no longer than the list of links. *)
Lemma collect_inline_images_spec (w : World) (tpl : template) (r : row) :
  (forall b e, InlineImage_init w tpl b Inches_2_5 = Raise e -> e = UnrecognizedImageError) ->
  collect_inline_images w tpl r
  = Ok (omap (fun ub => match InlineImage_init w tpl ub.2 Inches_2_5 with
                        | Ok img => Some img
                        | Raise _ => None
                        end) (fetched w (row_image_urls r)))
  /\ (length (fetched w (row_image_urls r))
      <= length (PyStr.split "," (str_or_empty r "Images")))%nat.
Proof.
  intros Hctor. unfold collect_inline_images, row_image_urls. split.
  - destruct (PyStr.truthy (str_or_empty r "Images")); [|reflexivity].
    rewrite (for_each_collect _
               (fun url => match download_drive_image w url with
                           | Ok (Some b) =>
                               match InlineImage_init w tpl b Inches_2_5 with
                               | Ok img => [img]
                               | Raise _ => []
                               end
                           | _ => []
                           end)).
    + f_equal. unfold fetched. cbn [app].
      induction (image_urls (str_or_empty r "Images")) as [|u urls IH]; [reflexivity|].
      cbn [fmap list_fmap concat omap list_omap].
      destruct (download_drive_image w u) as [[b|]|e]; cbn [app]; [|exact IH|exact IH].
      cbn [omap list_omap snd]. rewrite IH.
      destruct (InlineImage_init w tpl b Inches_2_5); reflexivity.
    + intros s url. rewrite download_drive_image_total. cbn [mbind result_bind bind].
      cbv zeta. destruct (PyStr.truthy _); [|rewrite app_nil_r; reflexivity].
      destruct (requests_get w _) as [resp|e]; [|rewrite app_nil_r; reflexivity].
      destruct (_ && _); [|rewrite app_nil_r; reflexivity].
      destruct (InlineImage_init w tpl (content resp) Inches_2_5) as [img|e] eqn:Hi;
        [reflexivity|].
      rewrite (Hctor _ _ Hi), app_nil_r. reflexivity.
  - destruct (PyStr.truthy (str_or_empty r "Images")).
    + etransitivity; [apply fetched_length | apply image_urls_length].
    + cbn. lia.
Qed.

(** C2 at a row whose picture downloads with Content-Type [image/webp]:
    docxtpl's [InlineImage] constructor accepts the bytes without looking
    at them, so the [except UnrecognizedImageError] around it never runs;
    the picture stays in the list, python-docx rejects it when the template
    is rendered, and the exception leaves [render_docx_row] and the whole
    download. *)
Theorem unrecognized_image_aborts_row :
  download_drive_image (demo_world true) "https://drive.google.com/open?id=WEBP1"
  = Ok (Some demo_webp)
  /\ docx_recognizes demo_webp = false
  /\ collect_inline_images (demo_world true) (TemplateFile "template.docx") webp_row
     = Ok [InlineImage demo_webp Inches_2_5]
  /\ render_docx_row (demo_world true) webp_row None (Some "template.docx")
     = Raise UnrecognizedImageError
  /\ download_zip (demo_world true) (Date 2024 3 5) None (Some "template.docx")
       [(0%nat, webp_row)]
     = InternalServerError UnrecognizedImageError.
Proof. repeat split; vm_compute; reflexivity. Qed.

(** * Further properties *)

(** ** Stripping *)

Lemma lstrip_head (s : string) :
  match PyStr.lstrip s with
  | String c _ => PyStr.is_space c = false
  | EmptyString => True
  end.
Proof.
  induction s as [|c s IH]; [exact I|]. cbn [PyStr.lstrip].
  destruct (PyStr.is_space c) eqn:Hc; [exact IH | exact Hc].
Qed.

Lemma lstrip_fixed (s : string) :
  match s with String c _ => PyStr.is_space c = false | EmptyString => True end ->
  PyStr.lstrip s = s.
Proof. destruct s as [|c s]; [reflexivity|]. cbn [PyStr.lstrip]. intros ->. reflexivity. Qed.

Lemma rstrip_cons (c : ascii) (s : string) :
  PyStr.rstrip (String c s) = EmptyString \/ exists r, PyStr.rstrip (String c s) = String c r.
Proof.
  cbn [PyStr.rstrip]. destruct (PyStr.rstrip s) as [|a r].
  - destruct (PyStr.is_space c); eauto.
  - eauto.
Qed.

Lemma rstrip_idem (s : string) : PyStr.rstrip (PyStr.rstrip s) = PyStr.rstrip s.
Proof.
  induction s as [|c s IH]; [reflexivity|]. cbn [PyStr.rstrip].
  destruct (PyStr.rstrip s) as [|a r] eqn:Hr.
  - destruct (PyStr.is_space c) eqn:Hc; [reflexivity|].
    cbn [PyStr.rstrip]. rewrite Hc. reflexivity.
  - cbn [PyStr.rstrip] in *. rewrite IH. reflexivity.
Qed.

(** Stripping twice is stripping once. *)
Lemma strip_idem (s : string) : PyStr.strip (PyStr.strip s) = PyStr.strip s.
Proof.
  unfold PyStr.strip. rewrite lstrip_fixed; [apply rstrip_idem|].
  pose proof (lstrip_head s) as Hh. destruct (PyStr.lstrip s) as [|c t]; [exact I|].
  destruct (rstrip_cons c t) as [-> | [r ->]]; [exact I | exact Hh].
Qed.

Lemma count_lstrip (c : ascii) (s : string) :
  (PyStr.count c (PyStr.lstrip s) <= PyStr.count c s)%nat.
Proof.
  induction s as [|a s IH]; [reflexivity|]. cbn [PyStr.lstrip].
  destruct (PyStr.is_space a); [cbn [PyStr.count]; lia | reflexivity].
Qed.

Lemma count_rstrip (c : ascii) (s : string) :
  (PyStr.count c (PyStr.rstrip s) <= PyStr.count c s)%nat.
Proof.
  induction s as [|a s IH]; [reflexivity|]. cbn [PyStr.rstrip].
  destruct (PyStr.rstrip s) as [|b r].
  - destruct (PyStr.is_space a); cbn [PyStr.count] in *; lia.
  - cbn [PyStr.count] in *. lia.
Qed.

Lemma count_strip (c : ascii) (s : string) :
  (PyStr.count c (PyStr.strip s) <= PyStr.count c s)%nat.
Proof.
  unfold PyStr.strip. etransitivity; [apply count_rstrip | apply count_lstrip].
Qed.

(** ** Site name parser: shape of the parts *)

Lemma parse_site_name_cases (s : string) :
  parse_site_name (VStr s) = ("", "", PyStr.strip s)
  \/ exists a b rest,
       PyStr.count "-" a = 0%nat /\ PyStr.count "-" b = 0%nat
       /\ parse_site_name (VStr s) = (PyStr.strip a, PyStr.strip b, PyStr.strip rest).
Proof.
  unfold parse_site_name.
  destruct (PyStr.count "-" s) as [|n] eqn:Hn.
  { left. rewrite (splitn_no_sep "-" s 2 Hn). reflexivity. }
  destruct (first_sep "-" s) as (a & t & -> & Ha & Hs); [lia|].
  rewrite (splitn_first "-" a _ 1 Ha).
  destruct (PyStr.count "-" t) as [|m] eqn:Hm.
  { left. rewrite (splitn_no_sep "-" t 1 Hm). reflexivity. }
  destruct (first_sep "-" t) as (b & rest & -> & Hb & Ht); [lia|].
  rewrite (splitn_first "-" b _ 0 Hb), splitn_0. right. exists a, b, rest. auto.
Qed.

(** X1: whatever the input, the three parts that the parser returns carry
    no white space at either end, and zone and unit code hold no hyphen. *)
Theorem parse_site_name_parts (v : value) (zone unit_code sitename : string) :
  parse_site_name v = (zone, unit_code, sitename) ->
  PyStr.strip zone = zone /\ PyStr.strip unit_code = unit_code
  /\ PyStr.strip sitename = sitename
  /\ PyStr.count "-" zone = 0%nat /\ PyStr.count "-" unit_code = 0%nat.
Proof.
  destruct v as [| | | | |s|]; try (intros [= <- <- <-]; repeat split; reflexivity).
  destruct (parse_site_name_cases s) as [-> | (a & b & rest & Ha & Hb & ->)];
    intros [= <- <- <-].
  - repeat split; try reflexivity. apply strip_idem.
  - repeat split; try apply strip_idem.
    + pose proof (count_strip "-" a). lia.
    + pose proof (count_strip "-" b). lia.
Qed.

Lemma parse_site_name_parts_witness :
  PyStr.strip "Main - Gate" = "Main - Gate" /\ PyStr.count "-" "12" = 0%nat.
Proof.
  destruct (parse_site_name_parts (VStr " N - 12 -  Main - Gate ") "N" "12" "Main - Gate"
              eq_refl) as (_ & _ & Hs & _ & Hu).
  split; assumption.
Defined.

(** ** Sheet identifier resolver *)

Lemma id_char_facts (c : ascii) :
  is_id_char c = true -> PyStr.is_space c = false /\ Ascii.eqb "/" c = false.
Proof.
  destruct c as [[] [] [] [] [] [] [] []]; vm_compute; intros H; try discriminate H;
    split; reflexivity.
Qed.

Lemma id_string_cons (c : ascii) (s : string) :
  id_string (String c s) <-> is_id_char c = true /\ id_string s.
Proof. unfold id_string. cbn [list_ascii_of_string forallb]. apply andb_true_iff. Qed.

Lemma rstrip_id_string (s : string) : id_string s -> PyStr.rstrip s = s.
Proof.
  induction s as [|c s IH]; [reflexivity|]. intros [Hc Hs]%id_string_cons.
  cbn [PyStr.rstrip]. rewrite (IH Hs). destruct s; [|reflexivity].
  destruct (id_char_facts c Hc) as [-> _]. reflexivity.
Qed.

Lemma strip_id_string (s : string) : id_string s -> PyStr.strip s = s.
Proof.
  intros H. unfold PyStr.strip. rewrite lstrip_fixed; [apply rstrip_id_string, H|].
  destruct s as [|c s]; [exact I|]. apply id_string_cons in H as [Hc _].
  apply (id_char_facts c Hc).
Qed.

(** No identifier holds a slash, so the URL pattern finds nothing in one. *)
Lemma re_search_sheet_none (s : string) :
  id_string s -> re_search_id "/spreadsheets/d/" "" s = None.
Proof.
  induction s as [|c s IH]; [reflexivity|]. intros [Hc Hs]%id_string_cons.
  cbn [re_search_id]. unfold match_id_here. cbn [drop_prefix].
  destruct (id_char_facts c Hc) as [_ ->]. apply IH, Hs.
Qed.

Lemma match_id_here_app (before after g post : string) :
  PyStr.truthy g = true -> id_string g ->
  match after ++ post with String c _ => is_id_char c = false | EmptyString => True end ->
  match_id_here before after (before ++ g ++ after ++ post) = Some g.
Proof.
  intros Hg Hall Hnext. unfold match_id_here. rewrite drop_prefix_of_app.
  destruct (take_drop_while_run is_id_char g (after ++ post) Hall Hnext) as [-> ->].
  rewrite Hg. unfold PyStr.startswith. rewrite prefix_of_app. reflexivity.
Qed.

Lemma re_search_id_here (before after s g : string) :
  match_id_here before after s = Some g -> re_search_id before after s = Some g.
Proof. intros H. destruct s; cbn [re_search_id]; rewrite H; reflexivity. Qed.

Lemma re_search_id_skip (before after : string) (c : ascii) (s : string) :
  match_id_here before after (String c s) = None ->
  re_search_id before after (String c s) = re_search_id before after s.
Proof. intros H. cbn [re_search_id]. rewrite H. reflexivity. Qed.

Lemma extract_sheet_id_export_url (sheet_id : string) :
  PyStr.truthy sheet_id = true -> id_string sheet_id ->
  extract_sheet_id (export_url sheet_id) = sheet_id.
Proof.
  intros Ht Hid. unfold extract_sheet_id, export_url.
  assert (Hhere : re_search_id "/spreadsheets/d/" ""
                    ("/spreadsheets/d/" ++ sheet_id ++ "/export?format=csv")
                  = Some sheet_id).
  { apply re_search_id_here.
    apply (match_id_here_app "/spreadsheets/d/" "" sheet_id "/export?format=csv");
      [exact Ht | exact Hid | reflexivity]. }
  change ("https://docs.google.com/spreadsheets/d/" ++ sheet_id ++ "/export?format=csv")
    with ("https://docs.google.com"
          ++ "/spreadsheets/d/" ++ sheet_id ++ "/export?format=csv").
  set (tail := "/spreadsheets/d/" ++ sheet_id ++ "/export?format=csv") in *.
  assert (Hskip : re_search_id "/spreadsheets/d/" "" ("https://docs.google.com" ++ tail)
                  = re_search_id "/spreadsheets/d/" "" tail).
  { rewrite !string_app_cons. change ("" ++ tail) with tail.
    repeat (rewrite re_search_id_skip by reflexivity). reflexivity. }
  rewrite Hskip, Hhere. reflexivity.
Qed.

(** X2: the resolver returns either the stripped input or a non-empty run
    of identifier characters that stands in the input right after
    [/spreadsheets/d/]; it never invents text. *)
Theorem extract_sheet_id_shape (sheet_input : string) :
  (re_search_id "/spreadsheets/d/" "" sheet_input = None
   /\ extract_sheet_id sheet_input = PyStr.strip sheet_input)
  \/ (PyStr.truthy (extract_sheet_id sheet_input) = true
      /\ id_string (extract_sheet_id sheet_input)
      /\ exists pre post,
           sheet_input = pre ++ "/spreadsheets/d/" ++ extract_sheet_id sheet_input ++ post
           /\ match post with
              | String c _ => is_id_char c = false
              | EmptyString => True
              end).
Proof.
  unfold extract_sheet_id.
  destruct (re_search_id "/spreadsheets/d/" "" sheet_input) as [g|] eqn:Hs; [right | left; auto].
  destruct (re_search_id_sound _ _ _ _ Hs) as (Hg & Hall & pre & post & Heq & Hpost).
  split; [exact Hg|]. split; [exact Hall|]. exists pre, post. split; assumption.
Qed.

(** X3: a bare identifier comes back unchanged, the export URL built from
    an identifier resolves to that identifier, and so loading a sheet by
    its export URL fetches the same URL as loading it by its identifier. *)
Theorem extract_sheet_id_round_trip (sheet_id : string) :
  PyStr.truthy sheet_id = true -> id_string sheet_id ->
  extract_sheet_id sheet_id = sheet_id
  /\ extract_sheet_id (export_url sheet_id) = sheet_id
  /\ forall (w : World) (gid : option string),
       load_sheet_via_csv w (export_url sheet_id) gid = load_sheet_via_csv w sheet_id gid.
Proof.
  intros Ht Hid.
  assert (H1 : extract_sheet_id sheet_id = sheet_id).
  { unfold extract_sheet_id. rewrite (re_search_sheet_none _ Hid). apply strip_id_string, Hid. }
  pose proof (extract_sheet_id_export_url sheet_id Ht Hid) as H2.
  split; [exact H1|]. split; [exact H2|].
  intros w gid. unfold load_sheet_via_csv. rewrite H1, H2. reflexivity.
Qed.

Lemma extract_sheet_id_round_trip_witness :
  extract_sheet_id "1x-Y_z9" = "1x-Y_z9"
  /\ extract_sheet_id "https://docs.google.com/spreadsheets/d/1x-Y_z9/export?format=csv"
     = "1x-Y_z9".
Proof.
  destruct (extract_sheet_id_round_trip "1x-Y_z9" eq_refl eq_refl) as (H1 & H2 & _).
  split; [exact H1 | exact H2].
Defined.

(** ** Remote image fetcher: what is requested *)

Lemma extract_drive_file_id_id_string (url : string) :
  id_string (extract_drive_file_id url).
Proof.
  pose proof (extract_drive_file_id_cases url) as H.
  destruct (re_search_id "id=" "" url) as [g|] eqn:H1.
  - destruct H as [-> _]. apply (re_search_id_sound _ _ _ _ H1).
  - destruct (re_search_id "/d/" "/" url) as [g|] eqn:H2.
    + destruct H as [-> _]. apply (re_search_id_sound _ _ _ _ H2).
    + rewrite H. reflexivity.
Qed.

(** X4: the only URLs the fetcher ever requests are export URLs of the
    image host followed by a non-empty identifier: two networks that agree
    on those URLs give the same pictures, for one link and for the preview
    of a whole row, whatever they answer elsewhere.  The link itself is
    never requested. *)
Theorem download_requests_export_url_only (w1 w2 : World) :
  (forall file_id, PyStr.truthy file_id = true -> id_string file_id ->
     requests_get w1 (download_url file_id) = requests_get w2 (download_url file_id)) ->
  (forall url, download_drive_image w1 url = download_drive_image w2 url)
  /\ (forall r, get_image_data_uris_for_row w1 r = get_image_data_uris_for_row w2 r).
Proof.
  intros Hnet.
  assert (Hd : forall url, download_drive_image w1 url = download_drive_image w2 url).
  { intros url. rewrite !download_drive_image_total. cbv zeta.
    destruct (PyStr.truthy (extract_drive_file_id url)) eqn:Ht; [|reflexivity].
    rewrite (Hnet _ Ht (extract_drive_file_id_id_string url)). reflexivity. }
  split; [exact Hd|].
  intros r. rewrite !get_image_data_uris_for_row_eq. do 2 f_equal.
  unfold fetched. induction (row_image_urls r) as [|u urls IH]; [reflexivity|].
  cbn [omap list_omap]. rewrite Hd, IH. reflexivity.
Qed.

Lemma download_requests_export_url_only_witness :
  download_drive_image (with_requests_get (demo_world true) open_requests_get)
    "https://example.org/picture.png"
  = Ok None.
Proof.
  rewrite <- (proj1 (download_requests_export_url_only (demo_world true)
                       (with_requests_get (demo_world true) open_requests_get)
                       ltac:(intros file_id _ _; cbn [requests_get with_requests_get demo_world];
                             unfold open_requests_get, PyStr.startswith, download_url;
                             rewrite prefix_of_app; reflexivity))
                "https://example.org/picture.png").
  reflexivity.
Defined.

(** ** Preview images *)

(** X5: collecting the preview pictures of a row never fails; there is at
    most one data URI per comma-separated piece of the "Images" cell; and a
    row without "Images", or whose cell is [None], empty or NaN, has no
    picture. *)
Theorem preview_images_bounded (w : World) (r : row) :
  exists uris,
    get_image_data_uris_for_row w r = Ok uris
    /\ (length uris <= length (PyStr.split "," (str_or_empty r "Images")))%nat
    /\ (r !! "Images" = None \/ r !! "Images" = Some VNone
        \/ r !! "Images" = Some (VStr "") \/ r !! "Images" = Some VNaN ->
        uris = []).
Proof.
  eexists. split; [apply get_image_data_uris_for_row_eq|]. split.
  - rewrite length_fmap. unfold row_image_urls.
    destruct (PyStr.truthy (str_or_empty r "Images")).
    + etransitivity; [apply fetched_length | apply image_urls_length].
    + cbn. lia.
  - unfold row_image_urls, str_or_empty, row_get.
    intros [-> | [-> | [-> | ->]]]; reflexivity.
Qed.

Lemma preview_images_bounded_witness :
  get_image_data_uris_for_row (demo_world true) (demo_row VNaN VNaN VNaN) = Ok [].
Proof.
  destruct (preview_images_bounded (demo_world true) (demo_row VNaN VNaN VNaN))
    as (uris & Hu & _ & Hnull).
  rewrite Hu. f_equal. apply Hnull. right. right. right. reflexivity.
Defined.

(** X6: with an [InlineImage] constructor that takes every picture, as
    docxtpl's does, the document and the preview of a row show the same
    pictures in the same order: picture [k] of the document is the payload
    of data URI [k] of the preview. *)
Theorem pictures_agree_on_both_paths (w : World) (tpl : template) (r : row) :
  (forall b, InlineImage_init w tpl b Inches_2_5 = Ok (InlineImage b Inches_2_5)) ->
  exists imgs uris,
    collect_inline_images w tpl r = Ok imgs
    /\ get_image_data_uris_for_row w r = Ok uris
    /\ length imgs = length uris
    /\ forall (k : nat) (img : inline_image), imgs !! k = Some img ->
         width img = Inches_2_5
         /\ exists url, uris !! k
                        = Some (image_bytes_to_data_uri (image_descriptor img)
                                  (mime_of_url url)).
Proof.
  intros Hctor.
  assert (Hraise : forall b e, InlineImage_init w tpl b Inches_2_5 = Raise e ->
                               e = UnrecognizedImageError).
  { intros b e He. rewrite Hctor in He. discriminate He. }
  pose proof (proj1 (collect_inline_images_spec w tpl r Hraise)) as Himgs.
  revert Himgs.
  assert (Hmap : omap (fun ub : string * bytes =>
                         match InlineImage_init w tpl ub.2 Inches_2_5 with
                         | Ok img => Some img
                         | Raise _ => None
                         end) (fetched w (row_image_urls r))
                 = (fun ub => InlineImage ub.2 Inches_2_5) <$> fetched w (row_image_urls r)).
  { induction (fetched w (row_image_urls r)) as [|ub l IH]; [reflexivity|].
    cbn [omap list_omap fmap list_fmap]. rewrite Hctor, IH. reflexivity. }
  rewrite Hmap. intros Himgs.
  eexists. eexists. split; [exact Himgs|].
  split; [apply get_image_data_uris_for_row_eq|]. split.
  - rewrite !length_fmap. reflexivity.
  - intros k img Hk. rewrite list_lookup_fmap in Hk.
    destruct (fetched w (row_image_urls r) !! k) as [[url b]|] eqn:Hf; [|discriminate].
    injection Hk as <-. split; [reflexivity|]. exists url.
    rewrite list_lookup_fmap, Hf. reflexivity.
Qed.

Lemma pictures_agree_on_both_paths_witness :
  exists imgs uris,
    collect_inline_images (demo_world true) (TemplateFile "template.docx") webp_row = Ok imgs
    /\ get_image_data_uris_for_row (demo_world true) webp_row = Ok uris
    /\ length imgs = length uris.
Proof.
  destruct (pictures_agree_on_both_paths (demo_world true) (TemplateFile "template.docx")
              webp_row (fun b => eq_refl)) as (imgs & uris & H1 & H2 & H3 & _).
  exists imgs, uris. auto.
Defined.

(** ** Row context builder: what is copied *)

Ltac item_at :=
  unfold context_items;
  match goal with |- context [parse_site_name ?v] => destruct (parse_site_name v) as [[? ?] ?] end;
  repeat (first [apply list_elem_of_here | apply list_elem_of_further]).

Lemma blank_null_id (v : value) : isna v = false -> blank_null v = v.
Proof. destruct v; try discriminate; reflexivity. Qed.

(** X7: a cell that is there and not null reaches the context unchanged,
    as the value it is (a number stays a number), for each of the ten
    fields that are copied; zone and unit code are the parsed parts of the
    "Site Name" cell, and the site name is the parsed name or, when that is
    empty, the cell itself with a null blanked. *)
Theorem build_context_copies_cells (w : World) (r : row) :
  exists ctx, build_context_from_row w r = Ok ctx
  /\ (forall f col v,
        (f, col) ∈ field_source -> col <> "Site Name" -> col <> "Date" ->
        r !! col = Some v -> isna v = false ->
        ctx !! f = Some v)
  /\ (forall zone unit_code sitename,
        parse_site_name (row_get r "Site Name" (VStr "")) = (zone, unit_code, sitename) ->
        ctx !! "zone" = Some (VStr zone)
        /\ ctx !! "unit_code" = Some (VStr unit_code)
        /\ ctx !! "site_name"
           = Some (if PyStr.truthy sitename then VStr sitename
                   else blank_null (row_get r "Site Name" (VStr "")))).
Proof.
  eexists. split; [apply build_context_from_row_eq|].
  set (fd := date_text w r). split.
  - intros f col v Hin Hsite Hdate Hv Hna.
    assert (Hget : blank_null (row_get r col (VStr "")) = v).
    { unfold row_get. rewrite Hv. apply blank_null_id, Hna. }
    unfold field_source in Hin.
    repeat (apply elem_of_cons in Hin as [[= -> ->]|Hin]);
      try (apply elem_of_nil in Hin; contradiction);
      try contradiction.
    all: rewrite <- Hget; apply context_lookup; item_at.
  - intros zone unit_code sitename Hp.
    assert (Hitems : context_items r fd !! 0%nat = Some ("zone", VStr zone)
                     /\ context_items r fd !! 1%nat = Some ("unit_code", VStr unit_code)
                     /\ context_items r fd !! 2%nat
                        = Some ("site_name",
                                py_or (VStr sitename) (row_get r "Site Name" (VStr "")))).
    { unfold context_items. rewrite Hp. repeat split. }
    destruct Hitems as (Hz & Hu & Hs). repeat split.
    + apply (context_lookup r fd "zone" (VStr zone)). eapply list_elem_of_lookup_2, Hz.
    + apply (context_lookup r fd "unit_code" (VStr unit_code)).
      eapply list_elem_of_lookup_2, Hu.
    + rewrite (context_lookup r fd "site_name" _ (list_elem_of_lookup_2 _ _ _ Hs)).
      unfold py_or. cbn [truthy]. destruct (PyStr.truthy sitename); reflexivity.
Qed.

Lemma build_context_copies_cells_witness :
  exists ctx,
    build_context_from_row (demo_world true)
      (demo_row VNaN (VStr "N - 12 - Main Gate") VNaN) = Ok ctx
    /\ ctx !! "overall_rating" = Some (VInt 4)
    /\ ctx !! "site_name" = Some (VStr "Main Gate").
Proof.
  destruct (build_context_copies_cells (demo_world true)
              (demo_row VNaN (VStr "N - 12 - Main Gate") VNaN))
    as (ctx & Hctx & Hcopy & Hsite).
  exists ctx. split; [exact Hctx|]. split.
  - apply (Hcopy "overall_rating" "Performance Check [Overall Rating]" (VInt 4));
      try discriminate; try reflexivity.
    unfold field_source. repeat (first [apply list_elem_of_here | apply list_elem_of_further]).
  - apply (Hsite "N" "12" "Main Gate"). reflexivity.
Defined.

(** ** Date filter: buckets and the date shown *)

Lemma filter_by_date_elem (w : World) (df : dataframe) (target : date) (i : nat) (r' : row) :
  (i, r') ∈ filter_by_date w df target <->
  exists r t,
    rows df !! i = Some r
    /\ infer_datetime w (column df "Date") i (row_get r "Date" VNaN) = Some t
    /\ ts_date t = target
    /\ r' = <["Date_parsed" := VTime t]> r.
Proof.
  unfold filter_by_date. cbv zeta.
  rewrite list_elem_of_filter, elem_of_lookup_imap. cbn [snd]. split.
  - intros (Hd & i' & r'' & [= <- <-] & Hl).
    apply with_parsed_lookup in Hl as (r & Hr & ->).
    unfold row_get in Hd at 1. rewrite lookup_insert_eq in Hd.
    apply date_is_true in Hd as (t & Ht & Hdate).
    exists r, t. destruct (infer_datetime w _ i _) as [t'|]; [|discriminate].
    injection Ht as ->. auto.
  - intros (r & t & Hr & Ht & Hdate & ->). split.
    + unfold row_get at 1. rewrite lookup_insert_eq. apply date_is_true. eauto.
    + exists i, (<["Date_parsed" := VTime t]> r). split; [reflexivity|].
      apply with_parsed_lookup. exists r. rewrite Ht. auto.
Qed.

(** X8: every row that the filter keeps for a target date of the calendar
    (years 1 to 9999) is rendered with that date, whatever its "Date" cell
    looked like: the [date] field of its context is the day and the month of
    the target date in two digits each and its year as [strftime] prints it,
    which is in four digits (DD/MM/YYYY) from the year 1000 on. *)
Theorem filtered_rows_show_target_date (w : World) (df : dataframe) (target : date)
    (i : nat) (r : row) :
  valid_date target = true ->
  (i, r) ∈ filter_by_date w df target ->
  exists ctx, build_context_from_row w r = Ok ctx
  /\ ctx !! "date"
     = Some (VStr (pad 2 (day target) ++ "/" ++ pad 2 (month target) ++ "/"
                   ++ PyStr.of_Z (year target)))
  /\ (1000 <= year target ->
      ctx !! "date"
      = Some (VStr (pad 2 (day target) ++ "/" ++ pad 2 (month target) ++ "/"
                    ++ pad 4 (year target)))).
Proof.
  intros Hv (r0 & t & _ & _ & <- & ->)%filter_by_date_elem.
  eexists. split; [apply build_context_from_row_eq|].
  rewrite context_date.
  assert (Hd : date_text w (<["Date_parsed" := VTime t]> r0)
               = pad 2 (day (ts_date t)) ++ "/" ++ pad 2 (month (ts_date t)) ++ "/"
                 ++ PyStr.of_Z (year (ts_date t))).
  { unfold date_text. rewrite lookup_insert_eq.
    cbn [isna to_datetime mbind result_bind bind]. unfold strftime_dmY. rewrite Hv.
    reflexivity. }
  rewrite Hd. split; [reflexivity|].
  intros Hy. rewrite (of_Z_four_digits (year (ts_date t))); [reflexivity|].
  pose proof (valid_date_year _ Hv). lia.
Qed.

Lemma filtered_rows_show_target_date_witness :
  valid_date (Date 2024 3 5) = true
  /\ exists ctx,
    build_context_from_row (demo_world true)
      (<["Date_parsed" := VTime (Timestamp (Date 2024 3 5) 21 40 0)]>
         (demo_row (VStr "2024-03-05 21:40:00") (VStr "N - 12 - Main Gate")
            (VStr "https://drive.google.com/open?id=PNG1, https://drive.google.com/file/d/GONE/view")))
    = Ok ctx
    /\ ctx !! "date" = Some (VStr "05/03/2024").
Proof.
  split; [reflexivity|].
  destruct (filtered_rows_show_target_date (demo_world true) demo_sheet (Date 2024 3 5) 0%nat
              (<["Date_parsed" := VTime (Timestamp (Date 2024 3 5) 21 40 0)]>
                 (demo_row (VStr "2024-03-05 21:40:00") (VStr "N - 12 - Main Gate")
                    (VStr "https://drive.google.com/open?id=PNG1, https://drive.google.com/file/d/GONE/view"))))
    as (ctx & Hctx & _ & Hdate).
  - reflexivity.
  - apply filter_by_date_elem. eexists _, _. repeat split; reflexivity.
  - exists ctx. split; [exact Hctx|]. apply Hdate. cbn. lia.
Defined.

(** X9: a row of the sheet falls under at most one target date: the
    filters for two different dates never keep the same row. *)
Theorem date_buckets_disjoint (w : World) (df : dataframe) (target1 target2 : date)
    (i : nat) (r1 r2 : row) :
  (i, r1) ∈ filter_by_date w df target1 ->
  (i, r2) ∈ filter_by_date w df target2 ->
  target1 = target2 /\ r1 = r2.
Proof.
  intros (r & t & Hr & Ht & <- & ->)%filter_by_date_elem
         (r' & t' & Hr' & Ht' & <- & ->)%filter_by_date_elem.
  rewrite Hr in Hr'. injection Hr' as <-. rewrite Ht in Ht'. injection Ht' as <-.
  split; reflexivity.
Qed.

Lemma date_buckets_disjoint_witness :
  ~ (exists r, (1%nat, r) ∈ filter_by_date (demo_world true) demo_sheet (Date 2024 3 5)).
Proof.
  intros [r Hin].
  assert (H6 : (1%nat, <["Date_parsed" := VTime (Timestamp (Date 2024 3 6) 0 0 0)]>
                         (demo_row (VStr "2024-03-06") (VStr "S-3-Depot") VNaN))
               ∈ filter_by_date (demo_world true) demo_sheet (Date 2024 3 6)).
  { apply filter_by_date_elem. eexists _, _. repeat split; reflexivity. }
  destruct (date_buckets_disjoint _ _ _ _ _ _ _ Hin H6) as [Hd _]. discriminate Hd.
Defined.

(** ** Archive packager: names, failures, the whole download *)

Lemma replace_truthy (a b : ascii) (s : string) :
  PyStr.truthy (PyStr.replace a b s) = PyStr.truthy s.
Proof. destruct s; reflexivity. Qed.

(** X10: the site part of an entry name is never empty and holds no space;
    it is "Site" whenever the "Site Name" cell is missing or is not a
    string, so such a row is stored as [<date>_Site.docx]. *)
Theorem archive_name_shape (target : date) (r : row) :
  exists slug,
    archive_name target r = date_iso target ++ "_" ++ slug ++ ".docx"
    /\ PyStr.truthy slug = true
    /\ PyStr.count " " slug = 0%nat
    /\ (match r !! "Site Name" with Some (VStr _) => False | _ => True end ->
        slug = "Site").
Proof.
  exists (site_slug r). split; [apply archive_name_eq|]. unfold site_slug. split; [|split].
  - rewrite replace_truthy.
    destruct ((parse_site_name (row_get r "Site Name" (VStr "Site"))).2); reflexivity.
  - apply replace_no_space.
  - unfold row_get. destruct (r !! "Site Name") as [[| | | | |s|]|]; intros H;
      try contradiction; reflexivity.
Qed.

Lemma archive_name_shape_witness :
  archive_name (Date 2024 3 5) (demo_row VNaN VNaN VNaN) = "2024-03-05_Site.docx".
Proof.
  destruct (archive_name_shape (Date 2024 3 5) (demo_row VNaN VNaN VNaN))
    as (slug & Hname & _ & _ & Hsite).
  rewrite Hname, (Hsite I). reflexivity.
Defined.

Lemma for_each_app {A S} (f : S -> A -> result S) (l1 l2 : list A) (s : S) :
  for_each f s (l1 ++ l2) = (s' ← for_each f s l1; for_each f s' l2).
Proof.
  revert s. induction l1 as [|a l1 IH]; intros s; [reflexivity|].
  cbn [app for_each]. destruct (f s a) as [s'|e]; [apply IH | reflexivity].
Qed.



Lemma load_and_filter_inr (w : World) (s : string) (g : option string) (d : string)
    (target : date) (df_date : list (nat * row)) :
  load_and_filter w s g d = inr (target, df_date) ->
  strptime_Ymd w d = Some target
  /\ df_date <> []
  /\ exists df, load_sheet_via_csv w s g = Ok df
                /\ "Date" ∈ columns df
                /\ df_date = filter_by_date w df target.
Proof.
  unfold load_and_filter.
  destruct (strptime_Ymd w d) as [t|]; [|discriminate].
  destruct (load_sheet_via_csv w s g) as [df|e]; [|discriminate].
  destruct (bool_decide ("Date" ∈ columns df)) eqn:Hcol; [|discriminate].
  apply bool_decide_eq_true in Hcol. cbn [negb].
  destruct (filter_by_date w df t) as [|ir l] eqn:Hf; [discriminate|].
  intros [= <- <-]. split; [reflexivity|]. split; [discriminate|].
  exists df. rewrite Hf. auto.
Qed.



(** ** Uploads *)

(** X13: the extension of an uploaded file is checked before the action is
    looked at: a file whose name does not end in [.docx] (in any case of
    letters) gets the request turned down, and that also for a preview,
    which never reads the template. *)
Theorem upload_extension_checked_for_every_action (w : World) (req : request)
    (target : date) (df_date : list (nat * row)) (u : upload) :
  reaches_action w req target df_date ->
  template_file req = Some u ->
  PyStr.truthy (filename u) = true ->
  PyStr.endswith (PyStr.lower (filename u)) ".docx" = false ->
  index w req = Redirect IndexPage (Some ("Template must be a .docx file.", "error")).
Proof.
  intros (Hm & Hs & Hd & Hl) Hu Hname Hext. unfold index. cbv zeta.
  rewrite Hm, Hs, Hd, Hl, Hu, Hname, Hext. reflexivity.
Qed.

Lemma upload_extension_checked_for_every_action_witness :
  index (demo_world true) (upload_request "preview" (Upload "template.doc" demo_png))
  = Redirect IndexPage (Some ("Template must be a .docx file.", "error")).
Proof.
  apply (upload_extension_checked_for_every_action (demo_world true) _ (Date 2024 3 5)
           (filter_by_date (demo_world true) demo_sheet (Date 2024 3 5))
           (Upload "template.doc" demo_png)); try reflexivity.
  repeat split; vm_compute; reflexivity.
Defined.

(** X14: an uploaded file with a [.docx] name and no content is not taken
    for a template, but the default template is not tried either: on the
    download path the test [os.path.exists(None)] raises [TypeError], and
    the request ends in that error instead of the template-missing
    message. *)
Theorem empty_upload_raises (w : World) (req : request) (target : date)
    (df_date : list (nat * row)) (u : upload) :
  reaches_action w req target df_date ->
  form_get req "action" "download_zip" = "download_zip" ->
  template_file req = Some u ->
  PyStr.truthy (filename u) = true ->
  PyStr.endswith (PyStr.lower (filename u)) ".docx" = true ->
  file_bytes u = [] ->
  index w req = InternalServerError TypeError.
Proof.
  intros (Hm & Hs & Hd & Hl) Ha Hu Hname Hext Hbytes. unfold index. cbv zeta.
  rewrite Hm, Hs, Hd, Hl, Hu, Hname, Hext, Ha, Hbytes. reflexivity.
Qed.

Lemma empty_upload_raises_witness :
  index (demo_world true) (upload_request "download_zip" (Upload "Template.DOCX" []))
  = InternalServerError TypeError.
Proof.
  apply (empty_upload_raises (demo_world true) _ (Date 2024 3 5)
           (filter_by_date (demo_world true) demo_sheet (Date 2024 3 5))
           (Upload "Template.DOCX" [])); try reflexivity.
  repeat split; vm_compute; reflexivity.
Defined.

(** X15: an uploaded template with a file name and content takes
    precedence over the file system: whether [template.docx], or any other
    path, exists makes no difference to the answer of [index]. *)
Theorem uploaded_template_takes_precedence (w : World) (req : request) (u : upload)
    (f : string -> bool) :
  template_file req = Some u ->
  PyStr.truthy (filename u) = true ->
  file_bytes u <> [] ->
  index (with_path_exists w f) req = index w req.
Proof.
  intros Hu Hname Hbytes. unfold index. cbv zeta. rewrite Hu, Hname.
  destruct (file_bytes u) as [|b bs] eqn:Hb; [contradiction|].
  destruct (String.eqb (method req) "POST"); [|reflexivity].
  destruct (negb _ || negb _); [reflexivity|].
  change (load_and_filter (with_path_exists w f)) with (load_and_filter w).
  destruct (load_and_filter w _ _ _) as [resp|[target df_date]]; [reflexivity|].
  destruct (negb _); reflexivity.
Qed.

Lemma uploaded_template_takes_precedence_witness :
  index (demo_world false) (upload_request "download_zip" (Upload "t.docx" demo_png))
  = index (demo_world true) (upload_request "download_zip" (Upload "t.docx" demo_png)).
Proof.
  apply (uploaded_template_takes_precedence (demo_world true)
           (upload_request "download_zip" (Upload "t.docx" demo_png))
           (Upload "t.docx" demo_png) (fun _ => false)); [reflexivity | reflexivity |].
  discriminate.
Defined.

(** ** Preview: navigation and errors *)

(** The page that [preview_page] renders for a non-empty set of rows. *)
Lemma preview_page_ctx (w : World) (sheet_input : string) (gid : option string)
    (date_str idx_str : string) (df_date : list (nat * row)) :
  df_date <> [] ->
  let total := Z.of_nat (length df_date) in
  let idx := clamp_index (default 0 (py_int idx_str)) total in
  exists ctx,
    preview_page w sheet_input gid date_str idx_str df_date
    = Ok (RenderTemplate "preview.html" ctx)
    /\ 0 <= idx <= total - 1
    /\ ctx !! "current_index" = Some (CVal (VInt idx))
    /\ ctx !! "total" = Some (CVal (VInt total))
    /\ ctx !! "has_prev" = Some (CVal (VBool (idx >? 0)))
    /\ ctx !! "has_next" = Some (CVal (VBool (idx <? total - 1))).
Proof.
  intros Hne total idx.
  assert (Htot : 1 <= total).
  { unfold total. destruct df_date; [contradiction | simpl; lia]. }
  pose proof (clamp_index_range (default 0 (py_int idx_str)) total Htot) as (Hrange & _).
  fold idx in Hrange.
  destruct (iloc_in_range df_date idx Hrange) as (i & r & Hl & Hiloc).
  eexists. unfold preview_page. fold total. fold idx.
  rewrite Hiloc. cbn [mbind result_bind bind].
  rewrite build_context_from_row_eq. cbn [mbind result_bind bind].
  rewrite get_image_data_uris_for_row_eq. cbn [mbind result_bind bind].
  split; [reflexivity|]. split; [exact Hrange|]. repeat split.
  - rewrite !lookup_insert_ne by discriminate. apply lookup_insert_eq.
  - rewrite !lookup_insert_ne by discriminate. apply lookup_insert_eq.
  - rewrite !lookup_insert_ne by discriminate. apply lookup_insert_eq.
  - apply lookup_insert_eq.
Qed.

(** X16: the navigation flags of a preview page never point outside the
    rows: [has_next] is set exactly when a row stands at the next index,
    [has_prev] exactly when the index is not the first, and following
    either keeps the index as asked; an index that is not an integer shows
    the first row. *)
Theorem preview_navigation (w : World) (sheet_input : string) (gid : option string)
    (date_str idx_str : string) (df_date : list (nat * row)) :
  df_date <> [] ->
  exists ctx idx has_prev has_next,
    preview_page w sheet_input gid date_str idx_str df_date
    = Ok (RenderTemplate "preview.html" ctx)
    /\ ctx !! "current_index" = Some (CVal (VInt idx))
    /\ ctx !! "has_prev" = Some (CVal (VBool has_prev))
    /\ ctx !! "has_next" = Some (CVal (VBool has_next))
    /\ (has_next = true <-> is_Some (df_date !! Z.to_nat (idx + 1)))
    /\ (has_prev = true <-> 1 <= idx)
    /\ (has_next = true ->
        clamp_index (idx + 1) (Z.of_nat (length df_date)) = idx + 1)
    /\ (has_prev = true ->
        clamp_index (idx - 1) (Z.of_nat (length df_date)) = idx - 1)
    /\ (py_int idx_str = None -> idx = 0).
Proof.
  intros Hne.
  destruct (preview_page_ctx w sheet_input gid date_str idx_str df_date Hne)
    as (ctx & Hpage & Hrange & Hcur & _ & Hprev & Hnext).
  set (total := Z.of_nat (length df_date)) in *.
  set (idx := clamp_index (default 0 (py_int idx_str)) total) in *.
  exists ctx, idx, (idx >? 0), (idx <? total - 1).
  split; [exact Hpage|]. split; [exact Hcur|]. split; [exact Hprev|]. split; [exact Hnext|].
  assert (Htot : 1 <= total) by lia.
  split; [|split; [|split; [|split]]].
  - rewrite lookup_lt_is_Some. unfold total in *. split.
    + intros H%Z.ltb_lt. lia.
    + intros H. apply Z.ltb_lt. lia.
  - split; [intros H%Z.gtb_lt; lia | intros H; apply Z.gtb_lt; lia].
  - intros H%Z.ltb_lt. apply (clamp_index_range (idx + 1) total Htot). lia.
  - intros H%Z.gtb_lt. apply (clamp_index_range (idx - 1) total Htot). lia.
  - intros Hint. unfold idx. rewrite Hint. cbn [default].
    apply (clamp_index_range 0 total Htot). lia.
Qed.

Lemma preview_navigation_witness :
  exists ctx,
    preview_page (demo_world true) "SHEET1" None "2024-03-05" "next" same_site_rows
    = Ok (RenderTemplate "preview.html" ctx)
    /\ ctx !! "current_index" = Some (CVal (VInt 0))
    /\ ctx !! "has_prev" = Some (CVal (VBool false))
    /\ ctx !! "has_next" = Some (CVal (VBool true)).
Proof.
  destruct (preview_navigation (demo_world true) "SHEET1" None "2024-03-05" "next"
              same_site_rows)
    as (ctx & idx & hp & hn & Hpage & Hcur & Hprev & Hnext & Hn & Hp & _ & _ & Hint).
  { unfold same_site_rows. discriminate. }
  specialize (Hint eq_refl). subst idx.
  exists ctx. split; [exact Hpage|]. split; [exact Hcur|].
  assert (hp = false) as ->.
  { destruct hp; [|reflexivity]. destruct Hp as [Hp _]. specialize (Hp eq_refl). lia. }
  assert (hn = true) as ->.
  { apply Hn. unfold same_site_rows. eexists. reflexivity. }
  split; assumption.
Defined.

(** ** The download branch: where it can fail; the way to the preview *)

Lemma zip_rows_raise (w : World) (target : date) (tb : option bytes) (tp : option string)
    (df_date : list (nat * row)) (e : exn) :
  zip_rows w target tb tp df_date = Raise e ->
  exists before ir after,
    df_date = (before ++ ir :: after)%list
    /\ Forall (fun jr => exists d, render_docx_row w jr.2 tb tp = Ok d) before
    /\ render_docx_row w ir.2 tb tp = Raise e.
Proof.
  unfold zip_rows. generalize (@nil (string * bytes)) as z.
  induction df_date as [|jr l IH]; intros z H; [discriminate|].
  cbn [for_each] in H.
  destruct (render_docx_row w jr.2 tb tp) as [d|e'] eqn:Hr; cbn [mbind result_bind bind] in H.
  - apply IH in H as (before & ir & after & -> & Hb & Hir).
    exists (jr :: before), ir, after. split; [reflexivity|].
    split; [constructor; eauto | exact Hir].
  - injection H as <-. exists [], jr, l. split; [reflexivity|].
    split; [constructor | exact Hr].
Qed.



Lemma gid_of_default (s : string) : gid_of (default "" (gid_of s)) = gid_of s.
Proof.
  unfold gid_of. cbv zeta. destruct (PyStr.truthy (PyStr.strip s)) eqn:Ht; [|reflexivity].
  change (default "" (Some (PyStr.strip s))) with (PyStr.strip s).
  rewrite strip_idem, Ht. reflexivity.
Qed.

Lemma follow_preview_args (s g d : string) (i : Z) :
  form_get (follow_preview s g d i) "sheet_input" "" = s
  /\ form_get (follow_preview s g d i) "gid" "" = g
  /\ form_get (follow_preview s g d i) "date" "" = d
  /\ form_get (follow_preview s g d i) "idx" "0" = PyStr.of_Z i.
Proof.
  unfold form_get, follow_preview. cbn [form list_to_map foldr curry fst snd].
  repeat split.
  all: rewrite ?lookup_insert_ne by discriminate; rewrite lookup_insert_eq; reflexivity.
Qed.

(** Following a redirect to the preview of the first row, for a request
    whose sheet and date passed the checks of [index]. *)
Lemma preview_follow (w : World) (req : request) (target : date)
    (df_date : list (nat * row)) :
  reaches_action w req target df_date ->
  exists ctx,
    preview w (follow_preview (PyStr.strip (form_get req "sheet_input" ""))
                 (default "" (gid_of (form_get req "gid" "")))
                 (PyStr.strip (form_get req "date" "")) 0)
    = RenderTemplate "preview.html" ctx
    /\ ctx !! "current_index" = Some (CVal (VInt 0))
    /\ ctx !! "total" = Some (CVal (VInt (Z.of_nat (length df_date))))
    /\ ctx !! "has_prev" = Some (CVal (VBool false)).
Proof.
  intros (_ & Hs & Hd & Hl).
  set (s := PyStr.strip (form_get req "sheet_input" "")) in *.
  set (d := PyStr.strip (form_get req "date" "")) in *.
  set (g := gid_of (form_get req "gid" "")) in *.
  pose proof (load_and_filter_inr _ _ _ _ _ _ Hl) as (_ & Hne & _).
  destruct (preview_page_ctx w s g d "0" df_date Hne)
    as (ctx & Hpage & _ & Hcur & Htot & Hprev & _).
  assert (Hidx : clamp_index (default 0 (py_int "0")) (Z.of_nat (length df_date)) = 0).
  { change (default 0 (py_int "0")) with 0.
    assert (Hlen : 1 <= Z.of_nat (length df_date)).
    { destruct df_date; [contradiction | simpl; lia]. }
    apply (clamp_index_range 0 (Z.of_nat (length df_date)) Hlen). lia. }
  rewrite Hidx in Hcur, Hprev.
  exists ctx. split; [|auto].
  unfold preview. cbv zeta.
  destruct (follow_preview_args s (default "" g) d 0) as (-> & -> & -> & ->).
  unfold s at 1 2 3, d at 1 2 3. rewrite !strip_idem. fold s. fold d.
  unfold g at 1 2. rewrite gid_of_default. fold g.
  rewrite Hs, Hd, Hl. cbn [negb orb].
  change (PyStr.strip (PyStr.of_Z 0)) with "0". rewrite Hpage. reflexivity.
Qed.

(** X19: the redirect that [index] answers a preview request with leads to
    a page: following it, against the same sheet, [preview] renders the
    first of the matching rows and reports their number. *)
Theorem preview_redirect_lands (w : World) (req : request) (target : date)
    (df_date : list (nat * row)) :
  no_upload req ->
  reaches_action w req target df_date ->
  form_get req "action" "download_zip" = "preview" ->
  exists sheet_input gid date_str ctx,
    index w req = Redirect (PreviewPage sheet_input gid date_str 0) None
    /\ preview w (follow_preview sheet_input gid date_str 0)
       = RenderTemplate "preview.html" ctx
    /\ ctx !! "current_index" = Some (CVal (VInt 0))
    /\ ctx !! "total" = Some (CVal (VInt (Z.of_nat (length df_date))))
    /\ ctx !! "has_prev" = Some (CVal (VBool false)).
Proof.
  intros Hno Hreach Ha.
  rewrite (index_after_checks w req target df_date Hno Hreach), Ha.
  destruct (preview_follow w req target df_date Hreach) as (ctx & Hp).
  eexists _, _, _, ctx. split; [reflexivity | exact Hp].
Qed.

Lemma preview_redirect_lands_witness :
  exists ctx,
    preview (demo_world false)
      (follow_preview "https://docs.google.com/spreadsheets/d/SHEET1/edit" "" "2024-03-05" 0)
    = RenderTemplate "preview.html" ctx
    /\ ctx !! "total" = Some (CVal (VInt 3)).
Proof.
  destruct (preview_redirect_lands (demo_world false) (demo_request "preview") (Date 2024 3 5)
              (filter_by_date (demo_world false) demo_sheet (Date 2024 3 5)))
    as (s & g & d & ctx & Hidx & Hprev & _ & Htot & _).
  - exact I.
  - repeat split; vm_compute; reflexivity.
  - reflexivity.
  - assert (Hi : index (demo_world false) (demo_request "preview")
                 = Redirect (PreviewPage "https://docs.google.com/spreadsheets/d/SHEET1/edit"
                               "" "2024-03-05" 0) None) by (vm_compute; reflexivity).
    rewrite Hi in Hidx. injection Hidx as <- <- <-.
    exists ctx. split; [exact Hprev|].
    rewrite Htot. do 3 f_equal.
Defined.

(** ** MIME type of a link *)

Lemma count_id_string (c : ascii) (s : string) :
  is_id_char c = false -> id_string s -> PyStr.count c s = 0%nat.
Proof.
  intros Hc. induction s as [|x s IH]; [reflexivity|]. intros [Hx Hs]%id_string_cons.
  cbn [PyStr.count]. rewrite (IH Hs).
  destruct (Ascii.eqb_spec x c) as [->|_]; [congruence | reflexivity].
Qed.

(** X20: the MIME type of the preview never depends on the query of a link,
    and every link of the image host, in either of the shapes that the
    fetcher knows, is labelled [image/jpeg], whatever picture it serves. *)
Theorem mime_of_drive_links :
  (forall u q, PyStr.count "?" u = 0%nat -> mime_of_url (u ++ "?" ++ q) = mime_of_url u)
  /\ (forall q, mime_of_url ("https://drive.google.com/open?" ++ q) = "image/jpeg")
  /\ (forall q, mime_of_url ("https://drive.google.com/uc?" ++ q) = "image/jpeg")
  /\ (forall file_id, id_string file_id ->
        mime_of_url ("https://drive.google.com/file/d/" ++ file_id ++ "/view")
        = "image/jpeg"
        /\ forall q,
             mime_of_url ("https://drive.google.com/file/d/" ++ file_id ++ "/view?" ++ q)
             = "image/jpeg").
Proof.
  assert (Hq : forall u q, PyStr.count "?" u = 0%nat ->
                           mime_of_url (u ++ "?" ++ q) = mime_of_url u).
  { intros u q Hu. unfold mime_of_url. rewrite (url_extension_query u q Hu). reflexivity. }
  split; [exact Hq|]. split; [|split].
  - intros q. apply (Hq "https://drive.google.com/open" q). reflexivity.
  - intros q. apply (Hq "https://drive.google.com/uc" q). reflexivity.
  - intros file_id Hid.
    assert (Hview : mime_of_url ("https://drive.google.com/file/d/" ++ file_id ++ "/view")
                    = "image/jpeg").
    { unfold mime_of_url.
      change ("https://drive.google.com/file/d/" ++ file_id ++ "/view")
        with ("https://drive.google" ++ String "." ("com/file/d/" ++ file_id ++ "/view")).
      rewrite url_extension_last.
      - rewrite !string_app_cons. reflexivity.
      - rewrite count_app. cbn [PyStr.count]. rewrite !count_app.
        rewrite (count_id_string "?" file_id eq_refl Hid). reflexivity.
      - rewrite !count_app. rewrite (count_id_string "." file_id eq_refl Hid). reflexivity. }
    split; [exact Hview|]. intros q.
    change ("https://drive.google.com/file/d/" ++ file_id ++ "/view?" ++ q)
      with ("https://drive.google.com/file/d/" ++ (file_id ++ ("/view" ++ "?" ++ q))).
    rewrite <- (string_app_assoc file_id "/view" ("?" ++ q)).
    rewrite <- (string_app_assoc "https://drive.google.com/file/d/" (file_id ++ "/view")
                  ("?" ++ q)).
    rewrite Hq; [exact Hview|].
    rewrite !count_app. rewrite (count_id_string "?" file_id eq_refl Hid). reflexivity.
Qed.

Lemma mime_of_drive_links_witness :
  mime_of_url "https://drive.google.com/file/d/1AbC_d-9/view?usp=sharing" = "image/jpeg"
  /\ mime_of_url "https://example.org/a.PNG?size=big" = "image/png".
Proof.
  split.
  - apply (proj2 (proj2 (proj2 (proj2 mime_of_drive_links)) "1AbC_d-9" eq_refl)
             "usp=sharing").
  - etransitivity;
      [exact (proj1 mime_of_drive_links "https://example.org/a.PNG" "size=big" eq_refl)
      | reflexivity].
Defined.

(** ** Download and preview together *)



(** ** Document renderer: what reaches the template engine *)

(** X22: when a row renders, the document is what the template engine
    makes of a context with exactly fifteen fields, the fourteen of the row
    (none of them null) and [images], the pictures collected for the row;
    the template is the uploaded one when it has content and otherwise the
    file at the given path, which then exists.  Without uploaded content
    and without an existing path the row fails with [FileNotFoundError],
    whatever the row holds. *)
Theorem render_docx_row_hands_context (w : World) (r : row) (tb : option bytes)
    (tp : option string) :
  (forall d, render_docx_row w r tb tp = Ok d ->
     exists tpl ctx imgs,
       render_save w tpl ctx = Ok d
       /\ collect_inline_images w tpl r = Ok imgs
       /\ ctx !! "images" = Some (CImages imgs)
       /\ dom ctx = {["images"]} ∪ list_to_set (field_source.*1)
       /\ (forall f, f ∈ field_source.*1 ->
             exists v, ctx !! f = Some (CVal v) /\ isna v = false)
       /\ match tb with
          | Some (b :: bs) => tpl = TemplateBytes (b :: bs)
          | _ => exists p, tp = Some p /\ PyStr.truthy p = true
                           /\ path_exists w p = true /\ tpl = TemplateFile p
          end)
  /\ (bytes_truthy tb = false ->
      tp = None \/ tp = Some "" \/ (exists p, tp = Some p /\ path_exists w p = false) ->
      render_docx_row w r tb tp = Raise (FileNotFoundError "No valid template.docx found.")).
Proof.
  split.
  - intros d. unfold render_docx_row.
    set (choice := if bytes_truthy tb then _ else _).
    destruct choice as [tpl|e] eqn:Hc; [|discriminate].
    cbn [mbind result_bind bind]. rewrite build_context_from_row_eq.
    cbn [mbind result_bind bind].
    destruct (collect_inline_images w tpl r) as [imgs|e] eqn:Hi; [|discriminate].
    cbn [mbind result_bind bind]. intros Hd.
    eexists tpl, _, imgs. split; [exact Hd|]. split; [exact Hi|].
    split; [apply lookup_insert_eq|]. split; [|split].
    + rewrite dom_insert_L, dom_fmap_L, context_dom. reflexivity.
    + intros f Hf. pose proof Hf as Hf'.
      rewrite <- (context_items_keys r (date_text w r)) in Hf.
      apply list_elem_of_fmap in Hf as ([f' v] & -> & Hin).
      exists (blank_null v). split; [|apply blank_null_not_na].
      cbn [fst] in *. rewrite lookup_insert_ne.
      * rewrite lookup_fmap, (context_lookup _ _ _ _ Hin). reflexivity.
      * intros <-. cbn in Hf'. revert Hf'. unfold field_source. cbn.
        rewrite !elem_of_cons, elem_of_nil. intros H.
        repeat (destruct H as [H|H]; [discriminate H|]). exact H.
    + subst choice. unfold bytes_truthy in Hc.
      destruct tb as [[|b bs]|].
      * destruct tp as [p|]; [|discriminate].
        destruct (PyStr.truthy p) eqn:Hp; [|discriminate].
        destruct (path_exists w p) eqn:He; [|discriminate]. cbn in Hc.
        destruct (DocxTemplate_init w (TemplateFile p)); [|discriminate].
        injection Hc as <-. eauto 6.
      * cbn in Hc. destruct (DocxTemplate_init w (TemplateBytes (b :: bs))); [|discriminate].
        injection Hc as <-. reflexivity.
      * destruct tp as [p|]; [|discriminate].
        destruct (PyStr.truthy p) eqn:Hp; [|discriminate].
        destruct (path_exists w p) eqn:He; [|discriminate]. cbn in Hc.
        destruct (DocxTemplate_init w (TemplateFile p)); [|discriminate].
        injection Hc as <-. eauto 6.
  - intros Hb Htp. unfold render_docx_row. rewrite Hb.
    destruct Htp as [-> | [-> | (p & -> & Hp)]]; try reflexivity.
    rewrite Hp, orb_true_r. reflexivity.
Qed.

Lemma render_docx_row_hands_context_witness :
  render_docx_row (demo_world false) webp_row None (Some "template.docx")
  = Raise (FileNotFoundError "No valid template.docx found.").
Proof.
  apply (proj2 (render_docx_row_hands_context (demo_world false) webp_row None
                  (Some "template.docx"))); [reflexivity|].
  right. right. exists "template.docx". split; reflexivity.
Defined.

(** ** Data URIs *)

Lemma b64_char_index (n : N) :
  (n < 64)%N -> b64_index (b64_char n) = n /\ Ascii.eqb (b64_char n) "=" = false.
Proof.
  intros Hn.
  assert (Hall : forallb (fun k => (b64_index (b64_char k) =? k)%N
                                   && negb (Ascii.eqb (b64_char k) "="))
                   (N.of_nat <$> seq 0 64) = true) by (vm_compute; reflexivity).
  rewrite forallb_forall in Hall.
  assert (Hin : n ∈ N.of_nat <$> seq 0 64).
  { apply list_elem_of_fmap. exists (N.to_nat n). split; [lia | apply elem_of_seq; lia]. }
  apply list_elem_of_In, Hall, andb_prop in Hin as [H1 H2].
  split; [apply N.eqb_eq, H1 | apply negb_true_iff, H2].
Qed.

Lemma byte_of_to_N (x : Init.Byte.byte) : byte_of_N (Byte.to_N x) = x.
Proof. unfold byte_of_N. rewrite Byte.of_to_N. reflexivity. Qed.

Section Sextets.
Local Open Scope N_scope.

Lemma sextets_of_three (x y z : N) :
  (x <= 255 -> y <= 255 -> z <= 255 ->
   let n := x * 65536 + y * 256 + z in
   n / 262144 < 64 /\ n / 4096 mod 64 < 64 /\ n / 64 mod 64 < 64 /\ n mod 64 < 64
   /\ let m := n / 262144 * 262144 + n / 4096 mod 64 * 4096 + n / 64 mod 64 * 64 + n mod 64 in
      m / 65536 = x /\ m / 256 mod 256 = y /\ m mod 256 = z)%N.
Proof.
  intros Hx Hy Hz n.
  pose proof (N.div_mod x 4 ltac:(lia)) as Ex. pose proof (N.mod_lt x 4 ltac:(lia)) as Bx.
  pose proof (N.div_mod y 16 ltac:(lia)) as Ey. pose proof (N.mod_lt y 16 ltac:(lia)) as By.
  pose proof (N.div_mod z 64 ltac:(lia)) as Ez. pose proof (N.mod_lt z 64 ltac:(lia)) as Bz.
  set (xa := x / 4) in *. set (xb := x mod 4) in *.
  set (ya := y / 16) in *. set (yb := y mod 16) in *.
  set (za := z / 64) in *. set (zb := z mod 64) in *.
  assert (HA : n / 262144 = xa).
  { symmetry. apply (N.div_unique n 262144 xa (xb * 65536 + y * 256 + z)); subst n; lia. }
  assert (HB1 : n / 4096 = x * 16 + ya).
  { symmetry. apply (N.div_unique n 4096 _ (yb * 256 + z)); subst n; lia. }
  assert (HB2 : (x * 16 + ya) mod 64 = xb * 16 + ya).
  { symmetry. apply (N.mod_unique _ 64 xa); lia. }
  assert (HC1 : n / 64 = x * 1024 + y * 4 + za).
  { symmetry. apply (N.div_unique n 64 _ zb); subst n; lia. }
  assert (HC2 : (x * 1024 + y * 4 + za) mod 64 = yb * 4 + za).
  { symmetry. apply (N.mod_unique _ 64 (x * 16 + ya)); lia. }
  assert (HD : n mod 64 = zb).
  { symmetry. apply (N.mod_unique n 64 (x * 1024 + y * 4 + za)); subst n; lia. }
  assert (Hm : xa * 262144 + (xb * 16 + ya) * 4096 + (yb * 4 + za) * 64 + zb = n)
    by (subst n; lia).
  assert (H1 : n / 65536 = x).
  { symmetry. apply (N.div_unique n 65536 _ (y * 256 + z)); subst n; lia. }
  assert (H2 : n / 256 = x * 256 + y).
  { symmetry. apply (N.div_unique n 256 _ z); subst n; lia. }
  assert (H3 : (x * 256 + y) mod 256 = y).
  { symmetry. apply (N.mod_unique _ 256 x); lia. }
  assert (H4 : n mod 256 = z).
  { symmetry. apply (N.mod_unique n 256 (x * 256 + y)); subst n; lia. }
  cbv zeta. rewrite HA, HB1, HB2, HC1, HC2, HD, Hm, H1, H2, H3, H4.
  repeat split; lia.
Qed.

Lemma sextets_of_two (x y : N) :
  (x <= 255 -> y <= 255 ->
   let n := x * 256 + y in
   n / 1024 < 64 /\ n / 16 mod 64 < 64 /\ n mod 16 * 4 < 64
   /\ let m := n / 1024 * 262144 + n / 16 mod 64 * 4096 + n mod 16 * 4 * 64 + 0 in
      m / 65536 = x /\ m / 256 mod 256 = y)%N.
Proof.
  intros Hx Hy n.
  pose proof (N.div_mod x 4 ltac:(lia)) as Ex. pose proof (N.mod_lt x 4 ltac:(lia)) as Bx.
  pose proof (N.div_mod y 16 ltac:(lia)) as Ey. pose proof (N.mod_lt y 16 ltac:(lia)) as By.
  set (xa := x / 4) in *. set (xb := x mod 4) in *.
  set (ya := y / 16) in *. set (yb := y mod 16) in *.
  assert (HA : n / 1024 = xa).
  { symmetry. apply (N.div_unique n 1024 xa (xb * 256 + y)); subst n; lia. }
  assert (HB1 : n / 16 = x * 16 + ya).
  { symmetry. apply (N.div_unique n 16 _ yb); subst n; lia. }
  assert (HB2 : (x * 16 + ya) mod 64 = xb * 16 + ya).
  { symmetry. apply (N.mod_unique _ 64 xa); lia. }
  assert (HC : n mod 16 = yb).
  { symmetry. apply (N.mod_unique n 16 (x * 16 + ya)); subst n; lia. }
  assert (Hm : xa * 262144 + (xb * 16 + ya) * 4096 + yb * 4 * 64 + 0 = n * 256)
    by (subst n; lia).
  assert (H1 : n * 256 / 65536 = x).
  { symmetry. apply (N.div_unique _ 65536 _ (y * 256)); subst n; lia. }
  assert (H2 : n * 256 / 256 = n).
  { symmetry. apply (N.div_unique _ 256 _ 0); lia. }
  assert (H3 : n mod 256 = y).
  { symmetry. apply (N.mod_unique n 256 x); subst n; lia. }
  cbv zeta. rewrite HA, HB1, HB2, HC, Hm, H1, H2, H3.
  repeat split; lia.
Qed.

Lemma sextets_of_one (x : N) :
  (x <= 255 ->
   x / 4 < 64 /\ x mod 4 * 16 < 64
   /\ (x / 4 * 262144 + x mod 4 * 16 * 4096 + 0 + 0) / 65536 = x)%N.
Proof.
  intros Hx.
  pose proof (N.div_mod x 4 ltac:(lia)) as Ex. pose proof (N.mod_lt x 4 ltac:(lia)) as Bx.
  set (xa := x / 4) in *. set (xb := x mod 4) in *.
  repeat split; try lia.
  symmetry. apply (N.div_unique _ 65536 x 0); lia.
Qed.

End Sextets.

Lemma b64decode_group (s0 s1 s2 s3 : N) (rest : string) :
  (s0 < 64)%N -> (s1 < 64)%N -> (s2 < 64)%N -> (s3 < 64)%N ->
  b64decode (String (b64_char s0) (String (b64_char s1)
               (String (b64_char s2) (String (b64_char s3) rest))))
  = let m := (s0 * 262144 + s1 * 4096 + s2 * 64 + s3)%N in
    byte_of_N (m / 65536) :: byte_of_N (m / 256 mod 256) :: byte_of_N (m mod 256)
    :: b64decode rest.
Proof.
  intros H0 H1 H2 H3. cbn [b64decode].
  destruct (b64_char_index s0 H0) as [-> _]. destruct (b64_char_index s1 H1) as [-> _].
  destruct (b64_char_index s2 H2) as [-> ->]. destruct (b64_char_index s3 H3) as [-> ->].
  reflexivity.
Qed.

Lemma b64decode_pad1 (s0 s1 s2 : N) :
  (s0 < 64)%N -> (s1 < 64)%N -> (s2 < 64)%N ->
  b64decode (String (b64_char s0) (String (b64_char s1) (String (b64_char s2) "=")))
  = let m := (s0 * 262144 + s1 * 4096 + s2 * 64 + 0)%N in
    [byte_of_N (m / 65536); byte_of_N (m / 256 mod 256)].
Proof.
  intros H0 H1 H2. cbn [b64decode].
  destruct (b64_char_index s0 H0) as [-> _]. destruct (b64_char_index s1 H1) as [-> _].
  destruct (b64_char_index s2 H2) as [-> ->]. reflexivity.
Qed.

Lemma b64decode_pad2 (s0 s1 : N) :
  (s0 < 64)%N -> (s1 < 64)%N ->
  b64decode (String (b64_char s0) (String (b64_char s1) "=="))
  = [byte_of_N ((s0 * 262144 + s1 * 4096 + 0 + 0) / 65536)].
Proof.
  intros H0 H1. cbn [b64decode].
  destruct (b64_char_index s0 H0) as [-> _]. destruct (b64_char_index s1 H1) as [-> _].
  reflexivity.
Qed.

Lemma b64_round_trip_le (n : nat) (b : bytes) :
  (length b <= n)%nat -> b64decode (b64encode b) = b.
Proof.
  revert b. induction n as [|n IH]; intros b Hn.
  { destruct b; [reflexivity | simpl in Hn; lia]. }
  destruct b as [|x [|y [|z rest]]].
  - reflexivity.
  - cbn [b64encode]. pose proof (Byte.to_N_bounded x) as Hx.
    destruct (sextets_of_one (Byte.to_N x) Hx) as (H0 & H1 & Hb).
    rewrite (b64decode_pad2 _ _ H0 H1), Hb, byte_of_to_N. reflexivity.
  - cbn [b64encode]. pose proof (Byte.to_N_bounded x) as Hx.
    pose proof (Byte.to_N_bounded y) as Hy.
    destruct (sextets_of_two (Byte.to_N x) (Byte.to_N y) Hx Hy) as (H0 & H1 & H2 & Hb1 & Hb2).
    cbv zeta in *. rewrite (b64decode_pad1 _ _ _ H0 H1 H2). cbv zeta.
    rewrite Hb1, Hb2, !byte_of_to_N. reflexivity.
  - cbn [b64encode]. pose proof (Byte.to_N_bounded x) as Hx.
    pose proof (Byte.to_N_bounded y) as Hy. pose proof (Byte.to_N_bounded z) as Hz.
    destruct (sextets_of_three (Byte.to_N x) (Byte.to_N y) (Byte.to_N z) Hx Hy Hz)
      as (H0 & H1 & H2 & H3 & Hb1 & Hb2 & Hb3).
    cbv zeta in *. rewrite (b64decode_group _ _ _ _ _ H0 H1 H2 H3). cbv zeta.
    rewrite Hb1, Hb2, Hb3, !byte_of_to_N. rewrite IH; [reflexivity|].
    cbn [length] in Hn. lia.
Qed.

Lemma string_app_inv_head (a x y : string) : a ++ x = a ++ y -> x = y.
Proof.
  induction a as [|c a IH]; [intros H; exact H|].
  rewrite !string_app_cons. intros [= H]. apply IH, H.
Qed.

Lemma b64encode_length_le (n : nat) (b : bytes) :
  (length b <= n)%nat ->
  String.length (b64encode b) = (4 * ((length b + 2) / 3))%nat.
Proof.
  revert b. induction n as [|n IH]; intros b Hn.
  { destruct b; [reflexivity | simpl in Hn; lia]. }
  destruct b as [|x [|y [|z rest]]]; try reflexivity.
  cbn [b64encode String.length length] in *. rewrite IH by lia.
  replace (S (S (S (length rest))) + 2)%nat with (1 * 3 + (length rest + 2))%nat by lia.
  rewrite Nat.div_add_l by lia. lia.
Qed.

(** X23: the data URI of a picture is [data:<mime>;base64,] followed by a
    payload of four characters for every three bytes, rounded up, and it
    loses nothing: decoding the payload gives the bytes back, so two
    pictures with the same URI are the same picture. *)
Theorem data_uri_lossless (img : bytes) (mime : string) :
  exists payload,
    image_bytes_to_data_uri img mime = "data:" ++ mime ++ ";base64," ++ payload
    /\ b64decode payload = img
    /\ String.length payload = (4 * ((length img + 2) / 3))%nat
    /\ forall other,
         image_bytes_to_data_uri other mime = image_bytes_to_data_uri img mime ->
         other = img.
Proof.
  exists (b64encode img). split; [reflexivity|].
  split; [apply (b64_round_trip_le (length img)); lia|].
  split; [apply (b64encode_length_le (length img)); lia|].
  intros other H. unfold image_bytes_to_data_uri in H.
  do 3 apply string_app_inv_head in H.
  rewrite <- (b64_round_trip_le (length other) other), H by lia.
  apply (b64_round_trip_le (length img)). lia.
Qed.

Lemma data_uri_lossless_witness :
  b64decode "iVBORw0KGgoA" = demo_png.
Proof.
  destruct (data_uri_lossless demo_png "image/png") as (payload & Huri & Hdec & _).
  assert (Hp : payload = "iVBORw0KGgoA").
  { unfold image_bytes_to_data_uri in Huri. do 3 apply string_app_inv_head in Huri.
    rewrite <- Huri. reflexivity. }
  rewrite <- Hp. exact Hdec.
Defined.
